(** * app.py: the event / player CRUD service

    A shallow embedding of [src/app.py]: the two mapped classes [Event] and
    [Player], the enumeration [Team], and the ten request handlers.  The
    handlers are written in a small state-and-exception monad whose state is
    the database together with the unit of work of [db.session].

    Conventions of the model.
    - A form value is a Rocq [string], a sequence of 8-bit characters, so
      the digits [strptime] sees are the ASCII digits; [request.form] is a
      multi-dict whose [get] answers the first value stored under a key,
      hence an association list.
    - A table is the list of its rows in rowid order, which is the order
      [query.all()] walks it in.  A rowid is a 64-bit integer: an id
      outside that range names no row of any table, and binding it to a
      statement raises OverflowError.
    - The handlers convert neither [mix10] nor [event_id]: what reaches the
      unit of work is the [str] of the form (or the default [False]).  The
      columns do the rest when the unit of work is flushed: a Boolean
      column refuses every [str] (StatementError, raised while the
      parameters are bound, before any constraint is looked at); an INTEGER
      column turns a text of decimal digits that fits 64 bits into that
      integer.
    - [nullable=False] columns reject [None] when the unit of work is
      flushed; the foreign key of [Player.event_id] is not enforced.
    - An exception that leaves a handler is the outcome [Raise]; the
      handlers contain no [try], so nothing is caught on the way. *)

From Stdlib Require Import ZArith List String Ascii Bool Lia.
From Stdlib Require Import Sorting.Sorted.
Import ListNotations.
Local Open Scope string_scope.
Local Open Scope Z_scope.

(** ** Python values that flow through the handlers *)

(** The exceptions the handlers can let escape. *)
Inductive exn : Type :=
| ValueError      (* datetime.strptime on a str that does not parse *)
| TypeError       (* datetime.strptime on None *)
| KeyError        (* Team[name] on a name that is no member *)
| IntegrityError  (* a NOT NULL column flushed with None *)
| StatementError  (* a Boolean column flushed with a str *)
| OverflowError.  (* an id outside the 64-bit range bound to a query *)

Inductive result (A : Type) : Type :=
| Ok (a : A)
| Raise (e : exn).
Arguments Ok {A} a.
Arguments Raise {A} e.

(** [class Team(Enum)]. *)
Inductive Team : Type := CT | TT.

(** [Team[name]]: lookup of a member by its name. *)
Definition Team_getitem (name : string) : result Team :=
  if String.eqb name "CT" then Ok CT
  else if String.eqb name "TT" then Ok TT
  else Raise KeyError.

(** [member.value]. *)
Definition Team_value (t : Team) : string :=
  match t with CT => "CT" | TT => "TT" end.

(** What [data.get('mix10', False)] can be: the default or a form string. *)
Inductive pyvalue : Type :=
| PyBool (b : bool)
| PyStr (s : string).

(** Truth value of [None] or a [str], as tested by [if team]. *)
Definition str_truthy (o : option string) : bool :=
  match o with
  | Some s => negb (String.eqb s "")
  | None => false
  end.

(** ** request.form *)

Definition form : Type := list (string * string).

(** [data.get(key)]: the first value under [key], or [None]. *)
Fixpoint form_get (key : string) (data : form) : option string :=
  match data with
  | [] => None
  | (k, v) :: rest => if String.eqb k key then Some v else form_get key rest
  end.

(** [data.get(key, default)] with a non-string default. *)
Definition form_get_default (key : string) (default : pyvalue) (data : form)
  : pyvalue :=
  match form_get key data with
  | Some v => PyStr v
  | None => default
  end.


(** ** datetime.strptime(s, '%Y-%m-%dT%H:%M:%S') *)

Record datetime : Type := mk_datetime {
  dt_year : Z; dt_month : Z; dt_day : Z;
  dt_hour : Z; dt_minute : Z; dt_second : Z
}.

Module Strptime.

Definition is_digit (c : ascii) : bool :=
  let n := nat_of_ascii c in (48 <=? n)%nat && (n <=? 57)%nat.

Definition digit (c : ascii) : Z := Z.of_nat (nat_of_ascii c) - 48.

Definition in_range (lo hi : Z) (c : ascii) : bool :=
  is_digit c && (lo <=? digit c) && (digit c <=? hi).

(** One alternative of a directive's pattern: a class for each of its
    one or two characters.  [two p q] is the pattern [pq]. *)
Definition two (p q : ascii -> bool) (s : list ascii)
  : option (Z * list ascii) :=
  match s with
  | a :: b :: rest =>
      if p a && q b then Some (10 * digit a + digit b, rest) else None
  | _ => None
  end.

Definition one (p : ascii -> bool) (s : list ascii)
  : option (Z * list ascii) :=
  match s with
  | a :: rest => if p a then Some (digit a, rest) else None
  | _ => None
  end.

(** [ p] : a blank followed by one character of the class. *)
Definition blank_one (p : ascii -> bool) (s : list ascii)
  : option (Z * list ascii) :=
  match s with
  | a :: b :: rest =>
      if Ascii.eqb a " "%char && p b then Some (digit b, rest) else None
  | _ => None
  end.

(** The alternatives of a directive, tried from left to right. *)
Fixpoint alt (ps : list (list ascii -> option (Z * list ascii)))
  (s : list ascii) : option (Z * list ascii) :=
  match ps with
  | [] => None
  | p :: ps' =>
      match p s with
      | Some r => Some r
      | None => alt ps' s
      end
  end.

(** [%Y] is [\d\d\d\d]. *)
Definition dir_Y (s : list ascii) : option (Z * list ascii) :=
  match s with
  | a :: b :: c :: d :: rest =>
      if is_digit a && is_digit b && is_digit c && is_digit d
      then Some (1000 * digit a + 100 * digit b + 10 * digit c + digit d,
                 rest)
      else None
  | _ => None
  end.

(** [%m] is [1[0-2]|0[1-9]|[1-9]]. *)
Definition dir_m := alt
  [ two (in_range 1 1) (in_range 0 2);
    two (in_range 0 0) (in_range 1 9);
    one (in_range 1 9) ].

(** [%d] is [3[0-1]|[1-2]\d|0[1-9]|[1-9]| [1-9]]. *)
Definition dir_d := alt
  [ two (in_range 3 3) (in_range 0 1);
    two (in_range 1 2) is_digit;
    two (in_range 0 0) (in_range 1 9);
    one (in_range 1 9);
    blank_one (in_range 1 9) ].

(** [%H] is [2[0-3]|[0-1]\d|\d]. *)
Definition dir_H := alt
  [ two (in_range 2 2) (in_range 0 3);
    two (in_range 0 1) is_digit;
    one is_digit ].

(** [%M] is [[0-5]\d|\d]. *)
Definition dir_M := alt
  [ two (in_range 0 5) is_digit;
    one is_digit ].

(** [%S] is [6[0-1]|[0-5]\d|\d]. *)
Definition dir_S := alt
  [ two (in_range 6 6) (in_range 0 1);
    two (in_range 0 5) is_digit;
    one is_digit ].

(** A literal character of the format; the pattern is compiled with
    IGNORECASE, so a letter matches in either case. *)
Definition lit (c : ascii) (s : list ascii) : option (list ascii) :=
  match s with
  | a :: rest =>
      if Ascii.eqb a c then Some rest
      else if Ascii.eqb c "T"%char && Ascii.eqb a "t"%char then Some rest
      else None
  | [] => None
  end.

Definition is_leap (y : Z) : bool :=
  ((y mod 4 =? 0) && negb (y mod 100 =? 0)) || (y mod 400 =? 0).

Definition days_in_month (y m : Z) : Z :=
  if m =? 2 then (if is_leap y then 29 else 28)
  else if (m =? 4) || (m =? 6) || (m =? 9) || (m =? 11) then 30
  else 31.

(** The range checks of the [datetime] constructor. *)
Definition valid (d : datetime) : bool :=
  (1 <=? dt_year d) && (dt_year d <=? 9999) &&
  (1 <=? dt_month d) && (dt_month d <=? 12) &&
  (1 <=? dt_day d) && (dt_day d <=? days_in_month (dt_year d) (dt_month d)) &&
  (0 <=? dt_hour d) && (dt_hour d <=? 23) &&
  (0 <=? dt_minute d) && (dt_minute d <=? 59) &&
  (0 <=? dt_second d) && (dt_second d <=? 59).

(** The match of the compiled pattern against the whole string: a match
    that leaves characters over is "unconverted data remains". *)
Definition regex (s : list ascii) : option datetime :=
  match dir_Y s with None => None | Some (y, s) =>
  match lit "-"%char s with None => None | Some s =>
  match dir_m s with None => None | Some (m, s) =>
  match lit "-"%char s with None => None | Some s =>
  match dir_d s with None => None | Some (d, s) =>
  match lit "T"%char s with None => None | Some s =>
  match dir_H s with None => None | Some (h, s) =>
  match lit ":"%char s with None => None | Some s =>
  match dir_M s with None => None | Some (mi, s) =>
  match lit ":"%char s with None => None | Some s =>
  match dir_S s with None => None | Some (sec, s) =>
  match s with
  | [] => Some (mk_datetime y m d h mi sec)
  | _ :: _ => None
  end end end end end end end end end end end end.

End Strptime.

(** [datetime.strptime(arg, '%Y-%m-%dT%H:%M:%S')] on what [data.get]
    returned. *)
Definition strptime (arg : option string) : result datetime :=
  match arg with
  | None => Raise TypeError
  | Some s =>
      match Strptime.regex (list_ascii_of_string s) with
      | Some d => if Strptime.valid d then Ok d else Raise ValueError
      | None => Raise ValueError
      end
  end.

(** The strings [datetime.strptime] takes for YYYY-MM-DDTHH:MM:SS. *)
Definition strptime_accepts (s : string) : bool :=
  match strptime (Some s) with Ok _ => true | Raise _ => false end.

(** ** The columns *)

(** The bind processor of [db.Boolean]: [True] and [False] pass, a [str]
    does not. *)
Definition Boolean_bind (v : pyvalue) : result bool :=
  match v with
  | PyBool b => Ok b
  | PyStr _ => Raise StatementError
  end.

(** What an INTEGER column holds after a text was stored in it.  A text of
    decimal digits whose value fits 64 bits becomes that integer.  Every
    other text becomes an INTEGER, a REAL or stays a TEXT by SQLite's rules
    for signs, blanks, fractions and exponents, which the model does not
    spell out: [Converted text] stands for whatever SQLite makes of
    [text]. *)
Inductive column_value : Type :=
| Integer (n : Z)
| Converted (text : string).

Definition decimal (digits : list ascii) : Z :=
  fold_left (fun n c => 10 * n + Strptime.digit c) digits 0.

(** The value of a text made of decimal digits only, when it fits. *)
Definition integer_literal (text : string) : option Z :=
  match list_ascii_of_string text with
  | [] => None
  | digits =>
      if forallb Strptime.is_digit digits && (decimal digits <? 2 ^ 63)
      then Some (decimal digits)
      else None
  end.

Definition INTEGER_affinity (text : string) : column_value :=
  match integer_literal text with
  | Some n => Integer n
  | None => Converted text
  end.

(** The integers SQLite takes as a parameter. *)
Definition fits_int64 (n : Z) : bool := (- 2 ^ 63 <=? n) && (n <? 2 ^ 63).

(** ** The mapped classes and the database *)

(** A row of [class Event(db.Model)]. *)
Record Event : Type := mk_Event {
  Event_id : Z;
  Event_name : option string;
  Event_match_time : datetime;
  Event_mix10 : bool
}.

(** A row of [class Player(db.Model)]. *)
Record Player : Type := mk_Player {
  Player_id : Z;
  Player_name : option string;
  Player_event_id : option column_value;
  Player_team : option Team
}.

(** The two tables, each in rowid order. *)
Record database : Type := mk_database {
  events : list Event;
  players : list Player
}.

Definition empty_database : database := mk_database [] [].

(** The rowid an INTEGER PRIMARY KEY column receives on insert: one more
    than the largest one in the table, 1 in an empty table. *)
Definition next_id (ids : list Z) : Z := 1 + fold_right Z.max 0 ids.

(** The row of a table with a given id. *)
Definition find_event (id : Z) (d : database) : option Event :=
  find (fun e => Event_id e =? id) (events d).

Definition find_player (id : Z) (d : database) : option Player :=
  find (fun p => Player_id p =? id) (players d).

(** [Event.query.get(id)] and [Player.query.get(id)]: the row with that id
    or [None]; an id outside the 64-bit range cannot be bound to the query
    and raises OverflowError.  A table of SQLite holds no rowid outside that
    range, so such an id is never the id of a row and the two tests can be
    made in either order. *)
Definition get_row {A : Type} (row : option A) (id : Z)
  : result (option A) :=
  match row with
  | Some r => Ok (Some r)
  | None => if fits_int64 id then Ok None else Raise OverflowError
  end.

(** ** db.session: the unit of work *)

(** Objects built by a constructor call and not yet flushed: they have no
    id yet, and their attributes are what the view passed. *)
Inductive transient : Type :=
| Event_new (name : option string) (match_time : datetime) (mix10 : pyvalue)
| Player_new (name : option string) (event_id : option string)
             (team : option Team).

(** Objects loaded from a row. *)
Inductive persistent : Type :=
| an_Event (e : Event)
| a_Player (p : Player).

(** A loaded object with the attributes a view assigned to it. *)
Inductive modified : Type :=
| Event_set (e : Event) (name : option string) (match_time : datetime)
            (mix10 : pyvalue)
| Player_set (p : Player) (name : option string) (event_id : option string)
             (team : option Team).

Record session : Type := mk_session {
  new : list transient;        (* db.session.add *)
  dirty : list modified;       (* attribute assignment on a loaded object *)
  deleted : list persistent    (* db.session.delete *)
}.

Definition empty_session : session := mk_session [] [] [].

(** The event_id a player row receives from the attribute. *)
Definition event_id_column (event_id : option string)
  : option column_value :=
  match event_id with
  | Some text => Some (INTEGER_affinity text)
  | None => None
  end.

(** INSERT of one object.  The parameters are bound first, then
    [nullable=False] columns refuse [None]. *)
Definition insert (o : transient) (d : database) : result database :=
  match o with
  | Event_new name match_time mix10 =>
      match Boolean_bind mix10 with
      | Raise e => Raise e
      | Ok mix10 =>
          match name with
          | None => Raise IntegrityError
          | Some _ =>
              let id := next_id (map Event_id (events d)) in
              Ok (mk_database
                    (events d ++ [mk_Event id name match_time mix10])
                    (players d))
          end
      end
  | Player_new name event_id team =>
      match name, event_id with
      | Some _, Some _ =>
          let id := next_id (map Player_id (players d)) in
          Ok (mk_database
                (events d)
                (players d
                   ++ [mk_Player id name (event_id_column event_id) team]))
      | _, _ => Raise IntegrityError
      end
  end.

(** UPDATE ... WHERE id = the object's id, with the assigned attributes. *)
Definition update (o : modified) (d : database) : result database :=
  match o with
  | Event_set e name match_time mix10 =>
      match Boolean_bind mix10 with
      | Raise e => Raise e
      | Ok mix10 =>
          match name with
          | None => Raise IntegrityError
          | Some _ =>
              let e' := mk_Event (Event_id e) name match_time mix10 in
              Ok (mk_database
                    (map (fun r => if Event_id r =? Event_id e then e' else r)
                         (events d))
                    (players d))
          end
      end
  | Player_set p name event_id team =>
      match name, event_id with
      | Some _, Some _ =>
          let p' :=
            mk_Player (Player_id p) name (event_id_column event_id) team in
          Ok (mk_database
                (events d)
                (map (fun r => if Player_id r =? Player_id p then p' else r)
                     (players d)))
      | _, _ => Raise IntegrityError
      end
  end.

(** DELETE ... WHERE id = the object's id.  Only the object's own table is
    touched: the models declare no relationship and no cascade. *)
Definition delete (o : persistent) (d : database) : result database :=
  match o with
  | an_Event e =>
      Ok (mk_database
            (filter (fun r => negb (Event_id r =? Event_id e)) (events d))
            (players d))
  | a_Player p =>
      Ok (mk_database
            (events d)
            (filter (fun r => negb (Player_id r =? Player_id p)) (players d)))
  end.

(** Statements of a flush run one after the other; the first failure
    abandons the rest. *)
Fixpoint run_all {A : Type} (stmt : A -> database -> result database)
  (l : list A) (d : database) : result database :=
  match l with
  | [] => Ok d
  | o :: l' =>
      match stmt o d with
      | Ok d' => run_all stmt l' d'
      | Raise e => Raise e
      end
  end.

Definition flush (s : session) (d : database) : result database :=
  match run_all insert (new s) d with
  | Raise e => Raise e
  | Ok d1 =>
      match run_all update (dirty s) d1 with
      | Raise e => Raise e
      | Ok d2 => run_all delete (deleted s) d2
      end
  end.

(** ** The handler monad: database and session, with exceptions *)

Record world : Type := mk_world {
  the_database : database;
  the_session : session
}.

Definition M (A : Type) : Type := world -> result A * world.

Definition ret {A : Type} (a : A) : M A := fun w => (Ok a, w).

Definition bind {A B : Type} (m : M A) (k : A -> M B) : M B :=
  fun w =>
    match m w with
    | (Ok a, w') => k a w'
    | (Raise e, w') => (Raise e, w')
    end.

(** A call of a pure function that may raise. *)
Definition call {A : Type} (r : result A) : M A := fun w => (r, w).

Declare Scope handler_scope.
Delimit Scope handler_scope with handler.
Notation "x <- m ;; k" := (bind m (fun x => k))
  (at level 61, m at next level, right associativity) : handler_scope.
Notation "m ;; k" := (bind m (fun _ => k))
  (at level 61, right associativity) : handler_scope.
Local Open Scope handler_scope.

Definition Event_query_all : M (list Event) :=
  fun w => (Ok (events (the_database w)), w).

Definition Event_query_get (id : Z) : M (option Event) :=
  fun w => (get_row (find_event id (the_database w)) id, w).

Definition Player_query_all : M (list Player) :=
  fun w => (Ok (players (the_database w)), w).

Definition Player_query_get (id : Z) : M (option Player) :=
  fun w => (get_row (find_player id (the_database w)) id, w).

Definition db_session_add (o : transient) : M unit :=
  fun w =>
    let s := the_session w in
    (Ok tt, mk_world (the_database w)
                     (mk_session (new s ++ [o]) (dirty s) (deleted s))).

(** The effect on the session of assigning attributes of a loaded object:
    the object, with its new attribute values, awaits an UPDATE. *)
Definition db_session_modified (o : modified) : M unit :=
  fun w =>
    let s := the_session w in
    (Ok tt, mk_world (the_database w)
                     (mk_session (new s) (dirty s ++ [o]) (deleted s))).

Definition db_session_delete (o : persistent) : M unit :=
  fun w =>
    let s := the_session w in
    (Ok tt, mk_world (the_database w)
                     (mk_session (new s) (dirty s) (deleted s ++ [o]))).

(** [db.session.commit()]: flush in one transaction; a failure leaves the
    database as it was. *)
Definition db_session_commit : M unit :=
  fun w =>
    match flush (the_session w) (the_database w) with
    | Ok d => (Ok tt, mk_world d empty_session)
    | Raise e => (Raise e, w)
    end.

(** ** jsonify and responses *)

#[local] Set Warnings "-register-all".

(** [JConverted text] is the JSON of [Converted text]: a number or a
    string, as SQLite decided. *)
Inductive json : Type :=
| JNull
| JBool (b : bool)
| JInt (n : Z)
| JStr (s : string)
| JDateTime (d : datetime)
| JConverted (text : string)
| JList (l : list json)
| JDict (l : list (string * json)).

#[local] Set Warnings "+register-all".

Definition json_of_str (o : option string) : json :=
  match o with Some s => JStr s | None => JNull end.

Definition json_of_column (o : option column_value) : json :=
  match o with
  | Some (Integer n) => JInt n
  | Some (Converted text) => JConverted text
  | None => JNull
  end.

(** A view's return value: [jsonify(x)] alone is status 200,
    [jsonify(x), code] carries its code. *)
Record response : Type := mk_response {
  body : json;
  status : Z
}.

Definition jsonify (j : json) : response := mk_response j 200.
Definition jsonify_status (j : json) (code : Z) : response :=
  mk_response j code.

Definition message (text : string) : json := JDict [("message", JStr text)].

(** [{"id": event.id, "name": event.name, "match_time": event.match_time,
      "mix10": event.mix10}] *)
Definition event_dict (event : Event) : json :=
  JDict [ ("id", JInt (Event_id event));
          ("name", json_of_str (Event_name event));
          ("match_time", JDateTime (Event_match_time event));
          ("mix10", JBool (Event_mix10 event)) ].

(** [player.team.value if player.team else None] *)
Definition team_value_or_None (team : option Team) : option string :=
  match team with
  | Some t => Some (Team_value t)
  | None => None
  end.

(** [{"id": player.id, "name": player.name, "event_id": player.event_id,
      "team": player.team.value if player.team else None}] *)
Definition player_dict (player : Player) : json :=
  JDict [ ("id", JInt (Player_id player));
          ("name", json_of_str (Player_name player));
          ("event_id", json_of_column (Player_event_id player));
          ("team", json_of_str (team_value_or_None (Player_team player))) ].

(** [Team[team] if team else None] *)
Definition Team_or_None (team : option string) : result (option Team) :=
  match team with
  | Some s =>
      if str_truthy team then
        match Team_getitem s with
        | Ok t => Ok (Some t)
        | Raise e => Raise e
        end
      else Ok None
  | None => Ok None
  end.

(** ** The views *)

Definition get_all_events : M response :=
  events <- Event_query_all ;;
  let event_list := map event_dict events in
  ret (jsonify (JList event_list)).

Definition create_event (data : form) : M response :=
  let event_name := form_get "name" data in
  let match_time_string := form_get "match_time" data in
  match_time <- call (strptime match_time_string) ;;
  let mix10 := form_get_default "mix10" (PyBool false) data in
  let new_event := Event_new event_name match_time mix10 in
  db_session_add new_event ;;
  db_session_commit ;;
  ret (jsonify_status (message "Event added successfully") 201).

Definition get_event (event_id : Z) : M response :=
  event <- Event_query_get event_id ;;
  match event with
  | None => ret (jsonify_status (message "Event not found") 404)
  | Some event => ret (jsonify (event_dict event))
  end.

Definition update_event (event_id : Z) (data : form) : M response :=
  event <- Event_query_get event_id ;;
  match event with
  | None => ret (jsonify_status (message "Event not found") 404)
  | Some event =>
      let new_name := form_get "name" data in
      let new_time_string := form_get "match_time" data in
      new_time <- call (strptime new_time_string) ;;
      let mix10 := form_get_default "mix10" (PyBool false) data in
      db_session_modified (Event_set event new_name new_time mix10) ;;
      db_session_commit ;;
      ret (jsonify (message "Event updated successfully"))
  end.

Definition delete_event (event_id : Z) : M response :=
  event <- Event_query_get event_id ;;
  match event with
  | None => ret (jsonify_status (message "Event not found") 404)
  | Some event =>
      db_session_delete (an_Event event) ;;
      db_session_commit ;;
      ret (jsonify (message "Event deleted successfully"))
  end.

Definition get_all_players : M response :=
  players <- Player_query_all ;;
  let player_list := map player_dict players in
  ret (jsonify (JList player_list)).

Definition get_player (player_id : Z) : M response :=
  player <- Player_query_get player_id ;;
  match player with
  | None => ret (jsonify_status (message "Player not found") 404)
  | Some player => ret (jsonify (player_dict player))
  end.

Definition create_player (data : form) : M response :=
  let player_name := form_get "name" data in
  let event_id := form_get "event_id" data in
  let team := form_get "team" data in
  team_member <- call (Team_or_None team) ;;
  let new_player := Player_new player_name event_id team_member in
  db_session_add new_player ;;
  db_session_commit ;;
  ret (jsonify_status (message "Player added successfully") 201).

Definition update_player (player_id : Z) (data : form) : M response :=
  player <- Player_query_get player_id ;;
  match player with
  | None => ret (jsonify_status (message "Player not found") 404)
  | Some player =>
      let new_name := form_get "name" data in
      let new_event_id := form_get "event_id" data in
      let new_team := form_get "team" data in
      team_member <- call (Team_or_None new_team) ;;
      db_session_modified
        (Player_set player new_name new_event_id team_member) ;;
      db_session_commit ;;
      ret (jsonify (message "Player updated successfully"))
  end.

Definition delete_player (player_id : Z) : M response :=
  player <- Player_query_get player_id ;;
  match player with
  | None => ret (jsonify_status (message "Player not found") 404)
  | Some player =>
      db_session_delete (a_Player player) ;;
      db_session_commit ;;
      ret (jsonify (message "Player deleted successfully"))
  end.

(** ** Requests *)

(** The routes of the application.  An id comes from an [<int:...>] path
    segment. *)
Inductive request : Type :=
| GET_api_event
| POST_api_event (data : form)
| GET_api_event_id (event_id : Z)
| PUT_api_event_id (event_id : Z) (data : form)
| DELETE_api_event_id (event_id : Z)
| GET_api_player
| GET_api_player_id (player_id : Z)
| POST_api_player (data : form)
| PUT_api_player_id (player_id : Z) (data : form)
| DELETE_api_player_id (player_id : Z).

Definition view (r : request) : M response :=
  match r with
  | GET_api_event => get_all_events
  | POST_api_event data => create_event data
  | GET_api_event_id id => get_event id
  | PUT_api_event_id id data => update_event id data
  | DELETE_api_event_id id => delete_event id
  | GET_api_player => get_all_players
  | GET_api_player_id id => get_player id
  | POST_api_player data => create_player data
  | PUT_api_player_id id data => update_player id data
  | DELETE_api_player_id id => delete_player id
  end.

(** One request against the database: the view runs with a session of its
    own, which is dropped when the request ends, whatever the outcome. *)
Definition serve (r : request) (d : database) : result response * database :=
  let (out, w) := view r (mk_world d empty_session) in
  (out, the_database w).

Definition outcome (r : request) (d : database) : result response :=
  fst (serve r d).

Definition after (r : request) (d : database) : database :=
  snd (serve r d).

(** The databases the service can be in: those reached from the empty one
    by requests. *)
Inductive reachable : database -> Prop :=
| reachable_empty : reachable empty_database
| reachable_serve (r : request) (d : database) :
    reachable d -> reachable (after r d).

(** Strictly ascending ids. *)
Definition ascending (ids : list Z) : Prop := StronglySorted Z.lt ids.

(** The two requests of the concrete scenarios. *)
Definition finals : form :=
  [("name", "Finals"); ("match_time", "2024-01-01T10:00:00"); ("mix10", "true")].
Definition alice : form :=
  [("name", "Alice"); ("event_id", "1"); ("team", "TT")].

(** Further requests used as examples. *)
Definition finals_mix10_false : form :=
  [("name", "Finals"); ("match_time", "2024-01-01T10:00:00");
   ("mix10", "false")].
Definition not_a_date : form :=
  [("name", "Finals"); ("match_time", "not-a-date")].
Definition alice_team_XX : form :=
  [("name", "Alice"); ("event_id", "1"); ("team", "XX")].
Definition alice_team_CT : form :=
  [("name", "Alice"); ("event_id", "1"); ("team", "CT")].
Definition alice_no_team : form :=
  [("name", "Alice"); ("event_id", "1")].
Definition semis : form :=
  [("name", "Semis"); ("match_time", "2024-02-29T18:30:00")].
Definition quarters : form :=
  [("name", "Quarters"); ("match_time", "2024-02-28T9:05:00")].
Definition bob_team_CT : form :=
  [("name", "Bob"); ("event_id", "7"); ("team", "CT")].
Definition carol_event_01 : form :=
  [("name", "Carol"); ("event_id", "01")].

(** A database with one event and one player, and one with two of each. *)
Definition one_event_one_player : database :=
  after (POST_api_player alice) (after (POST_api_event semis) empty_database).

Definition two_events_two_players : database :=
  after (POST_api_player carol_event_01)
    (after (POST_api_event quarters) one_event_one_player).

(** The response is a structured error of the 400 class. *)
Definition is_400_class (o : result response) : Prop :=
  exists r, o = Ok r /\ 400 <= status r < 500.

Definition event_ids (d : database) : list Z := map Event_id (events d).
Definition player_ids (d : database) : list Z := map Player_id (players d).

Definition not_found (what : string) : response :=
  jsonify_status (message (what ++ " not found")) 404.

(** The requests by the table they work on and by their method. *)
Definition is_event_request (r : request) : bool :=
  match r with
  | GET_api_event | POST_api_event _ | GET_api_event_id _
  | PUT_api_event_id _ _ | DELETE_api_event_id _ => true
  | _ => false
  end.

Definition is_POST (r : request) : bool :=
  match r with
  | POST_api_event _ | POST_api_player _ => true
  | _ => false
  end.

(** What the columns ask of a stored row: an id from 1 on, no [None] in a
    [nullable=False] column, and a match_time that is a date of the
    calendar. *)
Definition event_ok (e : Event) : Prop :=
  1 <= Event_id e /\ Event_name e <> None /\
  Strptime.valid (Event_match_time e) = true.

Definition player_ok (p : Player) : Prop :=
  1 <= Player_id p /\ Player_name p <> None /\ Player_event_id p <> None.

(** * Properties *)

(** ** The tables *)

Lemma next_id_above (ids : list Z) (x : Z) : In x ids -> x < next_id ids.
Proof.
  unfold next_id. induction ids as [|y ids IH]; cbn [fold_right In]; [tauto|].
  intros [->|H]; [|specialize (IH H)]; lia.
Qed.

Lemma find_event_None (id : Z) (d : database) :
  find_event id d = None <-> ~ In id (event_ids d).
Proof.
  unfold find_event, event_ids. induction (events d) as [|e l IH]; simpl.
  - tauto.
  - destruct (Z.eqb_spec (Event_id e) id) as [E|E].
    + split; [discriminate|]. intros H. exfalso. apply H. now left.
    + rewrite IH. tauto.
Qed.

Lemma find_player_None (id : Z) (d : database) :
  find_player id d = None <-> ~ In id (player_ids d).
Proof.
  unfold find_player, player_ids. induction (players d) as [|p l IH]; simpl.
  - tauto.
  - destruct (Z.eqb_spec (Player_id p) id) as [E|E].
    + split; [discriminate|]. intros H. exfalso. apply H. now left.
    + rewrite IH. tauto.
Qed.

Lemma find_event_Some (id : Z) (d : database) (e : Event) :
  find_event id d = Some e -> Event_id e = id /\ In e (events d).
Proof.
  unfold find_event. intros H. apply find_some in H as [H1 H2].
  split; [now apply Z.eqb_eq|assumption].
Qed.

Lemma find_player_Some (id : Z) (d : database) (p : Player) :
  find_player id d = Some p -> Player_id p = id /\ In p (players d).
Proof.
  unfold find_player. intros H. apply find_some in H as [H1 H2].
  split; [now apply Z.eqb_eq|assumption].
Qed.

(** A row appended under the fresh id is the one a lookup of that id
    finds. *)
Lemma find_appended {A : Type} (key : A -> Z) (l : list A) (a : A) :
  key a = next_id (map key l) ->
  find (fun r => key r =? key a) (l ++ [a]) = Some a.
Proof.
  intros E.
  assert (F : forall r, In r l -> (key r =? key a) = false).
  { intros r Hr. apply Z.eqb_neq. rewrite E.
    pose proof (next_id_above (map key l) (key r) (in_map key l r Hr)). lia. }
  clear E. induction l as [|r l IH]; simpl.
  - now rewrite Z.eqb_refl.
  - rewrite (F r (or_introl eq_refl)). apply IH.
    intros r' Hr'. apply F. now right.
Qed.

(** No row keeps an id that was deleted. *)
Lemma find_filtered {A : Type} (key : A -> Z) (l : list A) (id : Z) :
  find (fun r => key r =? id) (filter (fun r => negb (key r =? id)) l) = None.
Proof.
  induction l as [|r l IH]; simpl; [reflexivity|].
  destruct (key r =? id) eqn:E; simpl; [assumption|].
  now rewrite E.
Qed.

(** ** What each view does to the database *)

Ltac run_view :=
  unfold serve, view,
    get_all_events, create_event, get_event, update_event, delete_event,
    get_all_players, get_player, create_player, update_player, delete_player,
    bind, ret, call, Event_query_all, Event_query_get, Player_query_all,
    Player_query_get, db_session_add, db_session_modified, db_session_delete,
    db_session_commit, flush;
  cbn [the_database the_session new dirty deleted empty_session app run_all
       insert update delete].

Lemma serve_get_all_events (d : database) :
  serve GET_api_event d = (Ok (jsonify (JList (map event_dict (events d)))), d).
Proof. reflexivity. Qed.

Lemma serve_get_all_players (d : database) :
  serve GET_api_player d
  = (Ok (jsonify (JList (map player_dict (players d)))), d).
Proof. reflexivity. Qed.

Lemma serve_get_event (id : Z) (d : database) :
  serve (GET_api_event_id id) d
  = (match get_row (find_event id d) id with
     | Ok (Some event) => Ok (jsonify (event_dict event))
     | Ok None => Ok (not_found "Event")
     | Raise e => Raise e
     end, d).
Proof. run_view. now destruct (get_row _ id) as [[e|]|]. Qed.

Lemma serve_get_player (id : Z) (d : database) :
  serve (GET_api_player_id id) d
  = (match get_row (find_player id d) id with
     | Ok (Some player) => Ok (jsonify (player_dict player))
     | Ok None => Ok (not_found "Player")
     | Raise e => Raise e
     end, d).
Proof. run_view. now destruct (get_row _ id) as [[p|]|]. Qed.

Lemma serve_create_event (data : form) (d : database) :
  serve (POST_api_event data) d
  = match strptime (form_get "match_time" data),
          Boolean_bind (form_get_default "mix10" (PyBool false) data),
          form_get "name" data with
    | Raise e, _, _ => (Raise e, d)
    | Ok _, Raise e, _ => (Raise e, d)
    | Ok _, Ok _, None => (Raise IntegrityError, d)
    | Ok match_time, Ok mix10, Some name =>
        (Ok (jsonify_status (message "Event added successfully") 201),
         mk_database
           (events d ++
              [mk_Event (next_id (event_ids d)) (Some name) match_time mix10])
           (players d))
    end.
Proof.
  run_view.
  destruct (strptime (form_get "match_time" data)); [|reflexivity].
  destruct (Boolean_bind _); [|reflexivity].
  now destruct (form_get "name" data).
Qed.

Lemma serve_create_player (data : form) (d : database) :
  serve (POST_api_player data) d
  = match Team_or_None (form_get "team" data),
          form_get "name" data, form_get "event_id" data with
    | Raise e, _, _ => (Raise e, d)
    | Ok team, Some name, Some event_id =>
        (Ok (jsonify_status (message "Player added successfully") 201),
         mk_database
           (events d)
           (players d ++
              [mk_Player (next_id (player_ids d)) (Some name)
                 (Some (INTEGER_affinity event_id)) team]))
    | Ok _, _, _ => (Raise IntegrityError, d)
    end.
Proof.
  run_view.
  destruct (Team_or_None (form_get "team" data)); [|reflexivity].
  destruct (form_get "name" data); [|reflexivity].
  now destruct (form_get "event_id" data).
Qed.

Lemma serve_update_event (id : Z) (data : form) (d : database) :
  serve (PUT_api_event_id id data) d
  = match get_row (find_event id d) id with
    | Raise e => (Raise e, d)
    | Ok None => (Ok (not_found "Event"), d)
    | Ok (Some event) =>
        match strptime (form_get "match_time" data),
              Boolean_bind (form_get_default "mix10" (PyBool false) data),
              form_get "name" data with
        | Raise e, _, _ => (Raise e, d)
        | Ok _, Raise e, _ => (Raise e, d)
        | Ok _, Ok _, None => (Raise IntegrityError, d)
        | Ok new_time, Ok mix10, Some new_name =>
            let event' :=
              mk_Event (Event_id event) (Some new_name) new_time mix10 in
            (Ok (jsonify (message "Event updated successfully")),
             mk_database
               (map (fun r => if Event_id r =? Event_id event
                              then event' else r) (events d))
               (players d))
        end
    end.
Proof.
  run_view. destruct (get_row _ id) as [[event|]|]; try reflexivity.
  destruct (strptime (form_get "match_time" data)); [|reflexivity].
  cbn. destruct (Boolean_bind _); [|reflexivity].
  now destruct (form_get "name" data).
Qed.

Lemma serve_update_player (id : Z) (data : form) (d : database) :
  serve (PUT_api_player_id id data) d
  = match get_row (find_player id d) id with
    | Raise e => (Raise e, d)
    | Ok None => (Ok (not_found "Player"), d)
    | Ok (Some player) =>
        match Team_or_None (form_get "team" data),
              form_get "name" data, form_get "event_id" data with
        | Raise e, _, _ => (Raise e, d)
        | Ok team, Some new_name, Some new_event_id =>
            let player' :=
              mk_Player (Player_id player) (Some new_name)
                (Some (INTEGER_affinity new_event_id)) team in
            (Ok (jsonify (message "Player updated successfully")),
             mk_database
               (events d)
               (map (fun r => if Player_id r =? Player_id player
                              then player' else r) (players d)))
        | Ok _, _, _ => (Raise IntegrityError, d)
        end
    end.
Proof.
  run_view. destruct (get_row _ id) as [[player|]|]; try reflexivity.
  destruct (Team_or_None (form_get "team" data)); [|reflexivity].
  cbn. destruct (form_get "name" data); [|reflexivity].
  now destruct (form_get "event_id" data).
Qed.

Lemma serve_delete_event (id : Z) (d : database) :
  serve (DELETE_api_event_id id) d
  = match get_row (find_event id d) id with
    | Raise e => (Raise e, d)
    | Ok None => (Ok (not_found "Event"), d)
    | Ok (Some event) =>
        (Ok (jsonify (message "Event deleted successfully")),
         mk_database
           (filter (fun r => negb (Event_id r =? Event_id event)) (events d))
           (players d))
    end.
Proof. run_view. now destruct (get_row _ id) as [[event|]|]. Qed.

Lemma serve_delete_player (id : Z) (d : database) :
  serve (DELETE_api_player_id id) d
  = match get_row (find_player id d) id with
    | Raise e => (Raise e, d)
    | Ok None => (Ok (not_found "Player"), d)
    | Ok (Some player) =>
        (Ok (jsonify (message "Player deleted successfully")),
         mk_database
           (events d)
           (filter (fun r => negb (Player_id r =? Player_id player))
              (players d)))
    end.
Proof. run_view. now destruct (get_row _ id) as [[player|]|]. Qed.

(** A lookup of an id of the table finds a row; a lookup of an id that fits
    64 bits and is not in the table finds none. *)
Lemma get_event_missing (id : Z) (d : database) :
  fits_int64 id = true -> ~ In id (event_ids d) ->
  get_row (find_event id d) id = Ok None.
Proof.
  intros B H. apply find_event_None in H. rewrite H. cbn. now rewrite B.
Qed.

Lemma get_player_missing (id : Z) (d : database) :
  fits_int64 id = true -> ~ In id (player_ids d) ->
  get_row (find_player id d) id = Ok None.
Proof.
  intros B H. apply find_player_None in H. rewrite H. cbn. now rewrite B.
Qed.

Lemma get_event_present (id : Z) (d : database) :
  In id (event_ids d) ->
  exists e, find_event id d = Some e /\ Event_id e = id /\
            get_row (find_event id d) id = Ok (Some e).
Proof.
  intros H. destruct (find_event id d) as [e|] eqn:F.
  - exists e. destruct (find_event_Some _ _ _ F) as [E _]. now repeat split.
  - apply find_event_None in F. contradiction.
Qed.

Lemma get_player_present (id : Z) (d : database) :
  In id (player_ids d) ->
  exists p, find_player id d = Some p /\ Player_id p = id /\
            get_row (find_player id d) id = Ok (Some p).
Proof.
  intros H. destruct (find_player id d) as [p|] eqn:F.
  - exists p. destruct (find_player_Some _ _ _ F) as [E _]. now repeat split.
  - apply find_player_None in F. contradiction.
Qed.

(** Whatever a lookup returns is a row of the table with that id. *)
Lemma get_event_Some (id : Z) (d : database) (e : Event) :
  get_row (find_event id d) id = Ok (Some e) ->
  find_event id d = Some e /\ Event_id e = id /\ In e (events d).
Proof.
  destruct (find_event id d) as [e'|] eqn:F; cbn.
  - intros [= <-]. destruct (find_event_Some _ _ _ F). now repeat split.
  - now destruct (fits_int64 id).
Qed.

Lemma get_player_Some (id : Z) (d : database) (p : Player) :
  get_row (find_player id d) id = Ok (Some p) ->
  find_player id d = Some p /\ Player_id p = id /\ In p (players d).
Proof.
  destruct (find_player id d) as [p'|] eqn:F; cbn.
  - intros [= <-]. destruct (find_player_Some _ _ _ F). now repeat split.
  - now destruct (fits_int64 id).
Qed.

Lemma get_row_raises {A : Type} (row : option A) (id : Z) (e : exn) :
  get_row row id = Raise e ->
  e = OverflowError /\ row = None /\ fits_int64 id = false.
Proof.
  destruct row; cbn; [discriminate|].
  destruct (fits_int64 id); [discriminate|]. now intros [= <-].
Qed.

Lemma get_row_None {A : Type} (row : option A) (id : Z) :
  get_row row id = Ok None -> row = None /\ fits_int64 id = true.
Proof.
  destruct row; cbn; [discriminate|].
  now destruct (fits_int64 id).
Qed.

Ltac by_view r :=
  destruct r; unfold outcome, after;
  rewrite ?serve_get_all_events, ?serve_get_all_players, ?serve_get_event,
    ?serve_get_player, ?serve_create_event, ?serve_create_player,
    ?serve_update_event, ?serve_update_player, ?serve_delete_event,
    ?serve_delete_player.

Ltac split_cases :=
  repeat match goal with
         | |- context [match ?x with _ => _ end] => destruct x eqn:?
         end.

(** ** Ids stay in ascending order *)

Section Ascending.
Context {A : Type} (key : A -> Z).

Lemma ascending_snoc (ids : list Z) (n : Z) :
  (forall x, In x ids -> x < n) -> ascending ids -> ascending (ids ++ [n]).
Proof.
  induction ids as [|y ids IH]; cbn [app]; intros Hn S.
  - repeat constructor.
  - inversion S as [|? ? S' F]; subst. constructor.
    + apply IH; [|assumption]. intros x Hx. apply Hn. now right.
    + apply Forall_app. split; [assumption|].
      constructor; [|constructor]. apply Hn. now left.
Qed.

Lemma ascending_appended (l : list A) (a : A) :
  key a = next_id (map key l) ->
  ascending (map key l) -> ascending (map key (l ++ [a])).
Proof.
  intros E S. rewrite map_app. cbn [map]. rewrite E.
  apply ascending_snoc; [apply next_id_above|assumption].
Qed.

Lemma ascending_filtered (f : A -> bool) (l : list A) :
  ascending (map key l) -> ascending (map key (filter f l)).
Proof.
  induction l as [|r l IH]; cbn [map filter]; intros S; [constructor|].
  inversion S as [|? ? S' F]; subst.
  destruct (f r); cbn [map]; [|now apply IH].
  constructor; [now apply IH|].
  rewrite Forall_forall in *. intros x Hx. apply F.
  apply in_map_iff in Hx as (y & <- & Hy).
  apply filter_In in Hy as [Hy _]. now apply in_map.
Qed.

Lemma keys_replaced (id : Z) (a : A) (l : list A) :
  key a = id ->
  map key (map (fun r => if key r =? id then a else r) l) = map key l.
Proof.
  intros E. induction l as [|r l IH]; cbn [map]; [reflexivity|].
  rewrite IH. f_equal. destruct (Z.eqb_spec (key r) id); congruence.
Qed.
End Ascending.

Lemma after_event_ids_ascending (r : request) (d : database) :
  ascending (event_ids d) -> ascending (event_ids (after r d)).
Proof.
  intros S. by_view r; split_cases; cbn [snd]; try exact S;
    unfold event_ids in *; cbn [events];
    first [ now apply (ascending_appended Event_id)
          | now rewrite (keys_replaced Event_id) by reflexivity
          | now apply ascending_filtered ].
Qed.

Lemma after_player_ids_ascending (r : request) (d : database) :
  ascending (player_ids d) -> ascending (player_ids (after r d)).
Proof.
  intros S. by_view r; split_cases; cbn [snd]; try exact S;
    unfold player_ids in *; cbn [players];
    first [ now apply (ascending_appended Player_id)
          | now rewrite (keys_replaced Player_id) by reflexivity
          | now apply ascending_filtered ].
Qed.

Lemma reachable_ascending (d : database) :
  reachable d -> ascending (event_ids d) /\ ascending (player_ids d).
Proof.
  induction 1 as [|r d _ [IHe IHp]].
  - split; constructor.
  - split; [now apply after_event_ids_ascending
           |now apply after_player_ids_ascending].
Qed.

(** The views answer with 200, 201 or 404 and with nothing else. *)
Lemma status_of_outcome (r : request) (d : database) (resp : response) :
  outcome r d = Ok resp ->
  status resp = 200 \/ status resp = 201 \/ status resp = 404.
Proof.
  by_view r; split_cases; cbn [fst]; try discriminate;
    intros [= <-]; cbn; tauto.
Qed.

(** So no request at all is answered with status 400. *)
Lemma no_view_answers_400 (r : request) (d : database) (resp : response) :
  outcome r d = Ok resp -> status resp <> 400.
Proof.
  intros H. apply status_of_outcome in H. lia.
Qed.

(** ** Coercions *)

Lemma strptime_rejects (s : string) :
  strptime_accepts s = false -> strptime (Some s) = Raise ValueError.
Proof.
  unfold strptime_accepts, strptime.
  destruct (Strptime.regex _) as [t|]; [|reflexivity].
  now destruct (Strptime.valid t).
Qed.

Lemma Team_or_None_rejects (s : string) :
  s <> "" -> s <> "CT" -> s <> "TT" ->
  Team_or_None (Some s) = Raise KeyError.
Proof.
  intros H0 H1 H2. unfold Team_or_None, str_truthy, Team_getitem.
  apply String.eqb_neq in H0, H1, H2. now rewrite H0, H1, H2.
Qed.

Lemma find_fresh {A : Type} (key : A -> Z) (l : list A) (id : Z) (a : A) :
  key a = id -> id = next_id (map key l) ->
  find (fun r => key r =? id) (l ++ [a]) = Some a.
Proof.
  intros <- E. now apply find_appended.
Qed.

(** ** The claims *)

(** C1 (the code departs from the claim).  A create-event request that
    carries a mix10 field, be it the string "false", stores no event at
    all.  The view passes the string on unconverted, the Boolean column
    refuses it when the unit of work is flushed, StatementError leaves the
    view and the database stays as it was; a get of the id the event would
    have received is answered 404. *)
Theorem create_event_with_mix10_raises
  (d : database) (data : form) (s : string) (t : datetime) :
  form_get "mix10" data = Some s ->
  strptime (form_get "match_time" data) = Ok t ->
  fits_int64 (next_id (event_ids d)) = true ->
  serve (POST_api_event data) d = (Raise StatementError, d) /\
  outcome (GET_api_event_id (next_id (event_ids d)))
    (after (POST_api_event data) d)
  = Ok (mk_response (message "Event not found") 404).
Proof.
  intros Hm Ht B.
  assert (E : serve (POST_api_event data) d = (Raise StatementError, d)).
  { rewrite serve_create_event, Ht. unfold form_get_default.
    now rewrite Hm. }
  split; [exact E|].
  unfold outcome, after. rewrite E, serve_get_event. cbn [fst snd].
  rewrite get_event_missing; [reflexivity|exact B|].
  intros H. apply next_id_above in H. lia.
Qed.

Lemma create_event_with_mix10_raises_witness :
  serve (POST_api_event finals_mix10_false) empty_database
  = (Raise StatementError, empty_database) /\
  outcome (GET_api_event_id 1)
    (after (POST_api_event finals_mix10_false) empty_database)
  = Ok (mk_response (message "Event not found") 404).
Proof.
  apply (create_event_with_mix10_raises empty_database finals_mix10_false
           "false" (mk_datetime 2024 1 1 10 0 0));
    reflexivity.
Defined.

(** C2, as stated, fails: a create-event request with
    match_time = "not-a-date" gets no 400 response, the view raises
    ValueError. *)
Lemma not_a_date_is_no_400 :
  form_get "match_time" not_a_date = Some "not-a-date" /\
  strptime_accepts "not-a-date" = false /\
  outcome (POST_api_event not_a_date) empty_database = Raise ValueError /\
  ~ is_400_class (outcome (POST_api_event not_a_date) empty_database).
Proof.
  repeat split; try reflexivity.
  intros (r & H & _). discriminate H.
Qed.

(** C2, amended.  When the match_time field is a string that strptime does
    not accept, a create-event request, and an update-event request that
    names an id of the store, raise ValueError out of the view and leave
    the database as it was; an update-event request that names an id outside
    the store is answered 404.  The id is one that fits 64 bits. *)
Theorem bad_match_time_raises_ValueError
  (d : database) (data : form) (s : string) :
  form_get "match_time" data = Some s ->
  strptime_accepts s = false ->
  serve (POST_api_event data) d = (Raise ValueError, d) /\
  forall id : Z,
    fits_int64 id = true ->
    (In id (event_ids d) ->
     serve (PUT_api_event_id id data) d = (Raise ValueError, d)) /\
    (~ In id (event_ids d) ->
     serve (PUT_api_event_id id data) d
     = (Ok (mk_response (message "Event not found") 404), d)).
Proof.
  intros Hs Hr. apply strptime_rejects in Hr.
  split; [|intros id B; split; intros Hid].
  - now rewrite serve_create_event, Hs, Hr.
  - destruct (get_event_present id d Hid) as (e & _ & _ & G).
    now rewrite serve_update_event, G, Hs, Hr.
  - now rewrite serve_update_event, get_event_missing.
Qed.

Lemma bad_match_time_raises_ValueError_witness :
  serve (POST_api_event not_a_date) one_event_one_player
  = (Raise ValueError, one_event_one_player) /\
  serve (PUT_api_event_id 1 not_a_date) one_event_one_player
  = (Raise ValueError, one_event_one_player) /\
  serve (PUT_api_event_id 2 not_a_date) one_event_one_player
  = (Ok (mk_response (message "Event not found") 404), one_event_one_player).
Proof.
  destruct (bad_match_time_raises_ValueError one_event_one_player not_a_date
              "not-a-date" eq_refl eq_refl) as [H1 H2].
  split; [exact H1|]. split.
  - apply (H2 1 eq_refl). vm_compute. now left.
  - apply (H2 2 eq_refl). vm_compute. intros [H|[]]. discriminate H.
Defined.

(** C3, as stated, fails: a create-player request with team = "XX" gets no
    400 response, the view raises KeyError. *)
Lemma team_XX_is_no_400 :
  form_get "team" alice_team_XX = Some "XX" /\
  outcome (POST_api_player alice_team_XX) empty_database = Raise KeyError /\
  ~ is_400_class (outcome (POST_api_player alice_team_XX) empty_database).
Proof.
  repeat split.
  intros (r & H & _). discriminate H.
Qed.

(** C3, amended.  When the team field is a non-empty string other than
    "CT" and "TT", a create-player request, and an update-player request
    that names an id of the store, raise KeyError out of the view and leave
    the database as it was; an update-player request that names an id
    outside the store is answered 404.  The id is one that fits 64 bits. *)
Theorem bad_team_raises_KeyError
  (d : database) (data : form) (s : string) :
  form_get "team" data = Some s ->
  s <> "" -> s <> "CT" -> s <> "TT" ->
  serve (POST_api_player data) d = (Raise KeyError, d) /\
  forall id : Z,
    fits_int64 id = true ->
    (In id (player_ids d) ->
     serve (PUT_api_player_id id data) d = (Raise KeyError, d)) /\
    (~ In id (player_ids d) ->
     serve (PUT_api_player_id id data) d
     = (Ok (mk_response (message "Player not found") 404), d)).
Proof.
  intros Hs H0 H1 H2.
  pose proof (Team_or_None_rejects s H0 H1 H2) as Hr.
  split; [|intros id B; split; intros Hid].
  - now rewrite serve_create_player, Hs, Hr.
  - destruct (get_player_present id d Hid) as (p & _ & _ & G).
    now rewrite serve_update_player, G, Hs, Hr.
  - now rewrite serve_update_player, get_player_missing.
Qed.

Lemma bad_team_raises_KeyError_witness :
  serve (POST_api_player alice_team_XX) one_event_one_player
  = (Raise KeyError, one_event_one_player) /\
  serve (PUT_api_player_id 1 alice_team_XX) one_event_one_player
  = (Raise KeyError, one_event_one_player) /\
  serve (PUT_api_player_id 2 alice_team_XX) one_event_one_player
  = (Ok (mk_response (message "Player not found") 404), one_event_one_player).
Proof.
  destruct (bad_team_raises_KeyError one_event_one_player alice_team_XX "XX"
              eq_refl) as [H1 H2]; try discriminate.
  split; [exact H1|]. split.
  - apply (H2 1 eq_refl). vm_compute. now left.
  - apply (H2 2 eq_refl). vm_compute. intros [H|[]]. discriminate H.
Defined.

(** C4, as stated, fails: an update request that names the id 2^63, which
    no table holds, is not answered 404; the lookup raises OverflowError. *)
Lemma update_of_huge_id_raises :
  ~ In (2 ^ 63) (event_ids one_event_one_player) /\
  outcome (PUT_api_event_id (2 ^ 63) semis) one_event_one_player
  = Raise OverflowError /\
  ~ In (2 ^ 63) (player_ids one_event_one_player) /\
  outcome (PUT_api_player_id (2 ^ 63) alice) one_event_one_player
  = Raise OverflowError.
Proof.
  repeat split; try reflexivity; vm_compute; intros [H|[]]; discriminate H.
Qed.

(** C4, amended.  An update request, of an event or of a player, that names
    an id that fits 64 bits and is outside the store is answered 404 and
    leaves the database, both tables, exactly as it was, whatever the form
    holds. *)
Theorem update_missing_id_is_404 (d : database) (id : Z) (data : form) :
  fits_int64 id = true ->
  (~ In id (event_ids d) ->
   serve (PUT_api_event_id id data) d
   = (Ok (mk_response (message "Event not found") 404), d)) /\
  (~ In id (player_ids d) ->
   serve (PUT_api_player_id id data) d
   = (Ok (mk_response (message "Player not found") 404), d)).
Proof.
  intros B. split; intros H.
  - now rewrite serve_update_event, get_event_missing.
  - now rewrite serve_update_player, get_player_missing.
Qed.

Lemma update_missing_id_is_404_witness :
  serve (PUT_api_event_id 2 finals) one_event_one_player
  = (Ok (mk_response (message "Event not found") 404), one_event_one_player) /\
  serve (PUT_api_player_id 2 alice) one_event_one_player
  = (Ok (mk_response (message "Player not found") 404), one_event_one_player).
Proof.
  destruct (update_missing_id_is_404 one_event_one_player 2 finals eq_refl)
    as [H1 _].
  destruct (update_missing_id_is_404 one_event_one_player 2 alice eq_refl)
    as [_ H2].
  split; [apply H1|apply H2]; vm_compute; intros [H|[]]; discriminate H.
Defined.

(** C5 (the code departs from the claim for an event payload that carries
    mix10).  A create payload without mix10 for an event, and a create
    payload for a player whose event_id is a decimal integer, is stored
    under the fresh id with the fields of the form as the view and the
    columns convert them, and a get of that id returns exactly that record;
    a player created with team = "CT" is returned with "team": "CT", one
    created without team with "team": null.  An event payload that carries
    a mix10 field is not stored: the commit raises StatementError. *)
Theorem create_then_get (d : database) (data : form) :
  (forall (name : string) (t : datetime),
     form_get "name" data = Some name ->
     strptime (form_get "match_time" data) = Ok t ->
     form_get "mix10" data = None ->
     let event := mk_Event (next_id (event_ids d)) (Some name) t false in
     let d' := after (POST_api_event data) d in
     outcome (POST_api_event data) d
     = Ok (mk_response (message "Event added successfully") 201) /\
     d' = mk_database (events d ++ [event]) (players d) /\
     serve (GET_api_event_id (next_id (event_ids d))) d'
     = (Ok (mk_response
              (JDict [ ("id", JInt (next_id (event_ids d)));
                       ("name", JStr name); ("match_time", JDateTime t);
                       ("mix10", JBool false) ])
              200), d')) /\
  (forall (s : string) (t : datetime),
     form_get "mix10" data = Some s ->
     strptime (form_get "match_time" data) = Ok t ->
     serve (POST_api_event data) d = (Raise StatementError, d)) /\
  (forall (name event_id : string) (n : Z) (team : option Team),
     form_get "name" data = Some name ->
     form_get "event_id" data = Some event_id ->
     integer_literal event_id = Some n ->
     Team_or_None (form_get "team" data) = Ok team ->
     let player :=
       mk_Player (next_id (player_ids d)) (Some name) (Some (Integer n))
         team in
     let d' := after (POST_api_player data) d in
     outcome (POST_api_player data) d
     = Ok (mk_response (message "Player added successfully") 201) /\
     d' = mk_database (events d) (players d ++ [player]) /\
     serve (GET_api_player_id (next_id (player_ids d))) d'
     = (Ok (mk_response
              (JDict [ ("id", JInt (next_id (player_ids d)));
                       ("name", JStr name); ("event_id", JInt n);
                       ("team", json_of_str (team_value_or_None team)) ])
              200), d') /\
     (form_get "team" data = Some "CT" ->
      json_of_str (team_value_or_None team) = JStr "CT") /\
     (form_get "team" data = None ->
      json_of_str (team_value_or_None team) = JNull)).
Proof.
  split; [|split].
  - intros name t Hn Ht Hm event d'.
    assert (E : serve (POST_api_event data) d
                = (Ok (mk_response (message "Event added successfully") 201),
                   mk_database (events d ++ [event]) (players d))).
    { rewrite serve_create_event, Ht, Hn. unfold form_get_default.
      now rewrite Hm. }
    assert (D : d' = mk_database (events d ++ [event]) (players d)).
    { unfold d', after. now rewrite E. }
    repeat split.
    + unfold outcome. now rewrite E.
    + exact D.
    + rewrite serve_get_event. rewrite D at 1.
      unfold find_event. cbn [events].
      now rewrite (find_fresh Event_id (events d) _ event).
  - intros s t Hm Ht. rewrite serve_create_event, Ht.
    unfold form_get_default. now rewrite Hm.
  - intros name event_id n team Hn He Hi Ht player d'.
    assert (E : serve (POST_api_player data) d
                = (Ok (mk_response (message "Player added successfully") 201),
                   mk_database (events d) (players d ++ [player]))).
    { rewrite serve_create_player, Ht, Hn, He. unfold INTEGER_affinity.
      now rewrite Hi. }
    assert (D : d' = mk_database (events d) (players d ++ [player])).
    { unfold d', after. now rewrite E. }
    repeat split.
    + unfold outcome. now rewrite E.
    + exact D.
    + rewrite serve_get_player. rewrite D at 1.
      unfold find_player. cbn [players].
      now rewrite (find_fresh Player_id (players d) _ player).
    + intros Hc. rewrite Hc in Ht. now injection Ht as <-.
    + intros Hc. rewrite Hc in Ht. now injection Ht as <-.
Qed.

Lemma create_then_get_witness :
  serve (GET_api_event_id 1) (after (POST_api_event semis) empty_database)
  = (Ok (mk_response
           (JDict [ ("id", JInt 1); ("name", JStr "Semis");
                    ("match_time", JDateTime (mk_datetime 2024 2 29 18 30 0));
                    ("mix10", JBool false) ])
           200),
     after (POST_api_event semis) empty_database) /\
  serve (POST_api_event finals) empty_database
  = (Raise StatementError, empty_database) /\
  serve (GET_api_player_id 1)
    (after (POST_api_player alice_team_CT) empty_database)
  = (Ok (mk_response
           (JDict [ ("id", JInt 1); ("name", JStr "Alice");
                    ("event_id", JInt 1); ("team", JStr "CT") ])
           200),
     after (POST_api_player alice_team_CT) empty_database) /\
  serve (GET_api_player_id 1)
    (after (POST_api_player alice_no_team) empty_database)
  = (Ok (mk_response
           (JDict [ ("id", JInt 1); ("name", JStr "Alice");
                    ("event_id", JInt 1); ("team", JNull) ])
           200),
     after (POST_api_player alice_no_team) empty_database).
Proof.
  split; [|split; [|split]].
  - apply (proj1 (create_then_get empty_database semis)
             "Semis" (mk_datetime 2024 2 29 18 30 0) eq_refl eq_refl eq_refl).
  - apply (proj1 (proj2 (create_then_get empty_database finals))
             "true" (mk_datetime 2024 1 1 10 0 0) eq_refl eq_refl).
  - apply (proj2 (proj2 (create_then_get empty_database alice_team_CT))
             "Alice" "1" 1 (Some CT) eq_refl eq_refl eq_refl eq_refl).
  - apply (proj2 (proj2 (create_then_get empty_database alice_no_team))
             "Alice" "1" 1 None eq_refl eq_refl eq_refl eq_refl).
Defined.

(** C6, as stated, fails: a delete request that names the id 2^63, which no
    table holds, is not answered 404; the lookup raises OverflowError. *)
Lemma delete_of_huge_id_raises :
  ~ In (2 ^ 63) (event_ids one_event_one_player) /\
  outcome (DELETE_api_event_id (2 ^ 63)) one_event_one_player
  = Raise OverflowError /\
  ~ In (2 ^ 63) (player_ids one_event_one_player) /\
  outcome (DELETE_api_player_id (2 ^ 63)) one_event_one_player
  = Raise OverflowError.
Proof.
  repeat split; try reflexivity; vm_compute; intros [H|[]]; discriminate H.
Qed.

(** C6, amended.  A delete request that names an id that fits 64 bits and
    is outside the store is answered 404 and leaves the database as it was;
    one that names an id of the store is answered 200, removes the record,
    and a get of that id is then answered 404.  So for events, so for
    players. *)
Theorem delete_then_get (d : database) (id : Z) :
  (fits_int64 id = true -> ~ In id (event_ids d) ->
   serve (DELETE_api_event_id id) d
   = (Ok (mk_response (message "Event not found") 404), d)) /\
  (fits_int64 id = true -> In id (event_ids d) ->
   let d' := after (DELETE_api_event_id id) d in
   outcome (DELETE_api_event_id id) d
   = Ok (mk_response (message "Event deleted successfully") 200) /\
   ~ In id (event_ids d') /\
   outcome (GET_api_event_id id) d'
   = Ok (mk_response (message "Event not found") 404)) /\
  (fits_int64 id = true -> ~ In id (player_ids d) ->
   serve (DELETE_api_player_id id) d
   = (Ok (mk_response (message "Player not found") 404), d)) /\
  (fits_int64 id = true -> In id (player_ids d) ->
   let d' := after (DELETE_api_player_id id) d in
   outcome (DELETE_api_player_id id) d
   = Ok (mk_response (message "Player deleted successfully") 200) /\
   ~ In id (player_ids d') /\
   outcome (GET_api_player_id id) d'
   = Ok (mk_response (message "Player not found") 404)).
Proof.
  split; [|split; [|split]].
  - intros B H. now rewrite serve_delete_event, get_event_missing.
  - intros B H d'.
    destruct (get_event_present id d H) as (e & F & Hid & G).
    assert (N : ~ In id (event_ids d')).
    { apply find_event_None. unfold d', after.
      rewrite serve_delete_event, G. cbn [snd].
      unfold find_event. cbn [events]. rewrite Hid.
      apply (find_filtered Event_id). }
    repeat split.
    + unfold outcome. now rewrite serve_delete_event, G.
    + exact N.
    + unfold outcome. now rewrite serve_get_event, get_event_missing.
  - intros B H. now rewrite serve_delete_player, get_player_missing.
  - intros B H d'.
    destruct (get_player_present id d H) as (p & F & Hid & G).
    assert (N : ~ In id (player_ids d')).
    { apply find_player_None. unfold d', after.
      rewrite serve_delete_player, G. cbn [snd].
      unfold find_player. cbn [players]. rewrite Hid.
      apply (find_filtered Player_id). }
    repeat split.
    + unfold outcome. now rewrite serve_delete_player, G.
    + exact N.
    + unfold outcome. now rewrite serve_get_player, get_player_missing.
Qed.

Lemma delete_then_get_witness :
  serve (DELETE_api_event_id 2) one_event_one_player
  = (Ok (mk_response (message "Event not found") 404), one_event_one_player) /\
  outcome (GET_api_event_id 1)
    (after (DELETE_api_event_id 1) one_event_one_player)
  = Ok (mk_response (message "Event not found") 404) /\
  serve (DELETE_api_player_id 2) one_event_one_player
  = (Ok (mk_response (message "Player not found") 404), one_event_one_player) /\
  outcome (GET_api_player_id 1)
    (after (DELETE_api_player_id 1) one_event_one_player)
  = Ok (mk_response (message "Player not found") 404).
Proof.
  destruct (delete_then_get one_event_one_player 1) as (_ & E1 & _ & P1).
  destruct (delete_then_get one_event_one_player 2) as (E2 & _ & P2 & _).
  split; [|split; [|split]].
  - apply (E2 eq_refl). vm_compute. intros [H|[]]. discriminate H.
  - apply (E1 eq_refl). vm_compute. now left.
  - apply (P2 eq_refl). vm_compute. intros [H|[]]. discriminate H.
  - apply (P1 eq_refl). vm_compute. now left.
Defined.

(** C7, as stated, fails: a get that names the id 2^63, which no table
    holds, is not answered 404; the lookup itself raises OverflowError. *)
Lemma get_of_huge_id_raises :
  ~ In (2 ^ 63) (event_ids one_event_one_player) /\
  outcome (GET_api_event_id (2 ^ 63)) one_event_one_player
  = Raise OverflowError /\
  ~ In (2 ^ 63) (player_ids one_event_one_player) /\
  outcome (GET_api_player_id (2 ^ 63)) one_event_one_player
  = Raise OverflowError.
Proof.
  repeat split; try reflexivity; vm_compute; intros [H|[]]; discriminate H.
Qed.

(** C7, amended.  Get, update and delete look the id up before anything
    else: when the id fits 64 bits and is outside the store the answer is
    404 and nothing more happens, whatever the form holds, be its fields
    absent or malformed. *)
Theorem missing_id_is_checked_first (d : database) (id : Z) (data : form) :
  fits_int64 id = true ->
  (~ In id (event_ids d) ->
   serve (GET_api_event_id id) d
   = (Ok (mk_response (message "Event not found") 404), d) /\
   serve (PUT_api_event_id id data) d
   = (Ok (mk_response (message "Event not found") 404), d) /\
   serve (DELETE_api_event_id id) d
   = (Ok (mk_response (message "Event not found") 404), d)) /\
  (~ In id (player_ids d) ->
   serve (GET_api_player_id id) d
   = (Ok (mk_response (message "Player not found") 404), d) /\
   serve (PUT_api_player_id id data) d
   = (Ok (mk_response (message "Player not found") 404), d) /\
   serve (DELETE_api_player_id id) d
   = (Ok (mk_response (message "Player not found") 404), d)).
Proof.
  intros B. split; intros H.
  - now rewrite serve_get_event, serve_update_event, serve_delete_event,
      get_event_missing.
  - now rewrite serve_get_player, serve_update_player, serve_delete_player,
      get_player_missing.
Qed.

Lemma missing_id_is_checked_first_witness :
  strptime (form_get "match_time" [("match_time", "not-a-date"); ("team", "XX")])
  = Raise ValueError /\
  Team_or_None (form_get "team" [("match_time", "not-a-date"); ("team", "XX")])
  = Raise KeyError /\
  serve (PUT_api_event_id 7 [("match_time", "not-a-date"); ("team", "XX")])
    one_event_one_player
  = (Ok (mk_response (message "Event not found") 404), one_event_one_player) /\
  serve (PUT_api_player_id 7 [("match_time", "not-a-date"); ("team", "XX")])
    one_event_one_player
  = (Ok (mk_response (message "Player not found") 404), one_event_one_player).
Proof.
  destruct (missing_id_is_checked_first one_event_one_player 7
              [("match_time", "not-a-date"); ("team", "XX")] eq_refl)
    as [HE HP].
  split; [reflexivity|]. split; [reflexivity|]. split.
  - apply HE. vm_compute. intros [H|[]]. discriminate H.
  - apply HP. vm_compute. intros [H|[]]. discriminate H.
Defined.

(** C8.  The list views answer 200 with one dict for every record of the
    table, in table order, holding the record's id, name, match_time and
    mix10, or its id, name, event_id and team.  In every database the
    service can reach that order is ascending in the id, and it is the
    order of insertion: a record just created is listed last, after the
    records that were there, with the fields of its form. *)
Theorem list_views_in_id_order (d : database) :
  let event_json (e : Event) :=
    JDict [ ("id", JInt (Event_id e)); ("name", json_of_str (Event_name e));
            ("match_time", JDateTime (Event_match_time e));
            ("mix10", JBool (Event_mix10 e)) ] in
  let player_json (p : Player) :=
    JDict [ ("id", JInt (Player_id p)); ("name", json_of_str (Player_name p));
            ("event_id", json_of_column (Player_event_id p));
            ("team", match Player_team p with
                     | Some CT => JStr "CT"
                     | Some TT => JStr "TT"
                     | None => JNull
                     end) ] in
  serve GET_api_event d
  = (Ok (mk_response (JList (map event_json (events d))) 200), d) /\
  serve GET_api_player d
  = (Ok (mk_response (JList (map player_json (players d))) 200), d) /\
  (reachable d -> ascending (event_ids d) /\ ascending (player_ids d)) /\
  (forall (data : form) (resp : response),
     outcome (POST_api_event data) d = Ok resp ->
     exists (name : string) (t : datetime),
       form_get "name" data = Some name /\
       strptime (form_get "match_time" data) = Ok t /\
       Forall (fun id => id < next_id (event_ids d)) (event_ids d) /\
       outcome GET_api_event (after (POST_api_event data) d)
       = Ok (mk_response
               (JList (map event_json (events d)
                       ++ [JDict [ ("id", JInt (next_id (event_ids d)));
                                   ("name", JStr name);
                                   ("match_time", JDateTime t);
                                   ("mix10", JBool false) ]])) 200)) /\
  (forall (data : form) (resp : response),
     outcome (POST_api_player data) d = Ok resp ->
     exists (name event_id : string) (team : option Team),
       form_get "name" data = Some name /\
       form_get "event_id" data = Some event_id /\
       Team_or_None (form_get "team" data) = Ok team /\
       Forall (fun id => id < next_id (player_ids d)) (player_ids d) /\
       outcome GET_api_player (after (POST_api_player data) d)
       = Ok (mk_response
               (JList (map player_json (players d)
                       ++ [JDict [ ("id", JInt (next_id (player_ids d)));
                                   ("name", JStr name);
                                   ("event_id",
                                    json_of_column
                                      (Some (INTEGER_affinity event_id)));
                                   ("team",
                                    json_of_str (team_value_or_None team)) ]]))
               200)).
Proof.
  intros event_json player_json.
  assert (P : forall p, player_dict p = player_json p).
  { intros p. unfold player_dict, player_json.
    now destruct (Player_team p) as [[|]|]. }
  split; [reflexivity|]. split.
  { rewrite serve_get_all_players. unfold jsonify. do 4 f_equal.
    apply map_ext, P. }
  split; [apply reachable_ascending|]. split.
  - intros data resp. unfold outcome, after.
    rewrite serve_get_all_events, serve_create_event.
    destruct (strptime _) as [t|]; [|discriminate].
    unfold form_get_default.
    destruct (form_get "mix10" data); [discriminate|]. cbn [Boolean_bind].
    destruct (form_get "name" data) as [name|]; [|discriminate].
    intros _. exists name, t. repeat split.
    + apply Forall_forall. intros x Hx. now apply next_id_above.
    + cbn [fst snd events]. rewrite map_app. reflexivity.
  - intros data resp. unfold outcome, after.
    rewrite serve_get_all_players, serve_create_player.
    destruct (Team_or_None _) as [team|]; [|discriminate].
    destruct (form_get "name" data) as [name|]; [|discriminate].
    destruct (form_get "event_id" data) as [event_id|]; [|discriminate].
    intros _. exists name, event_id, team. repeat split.
    + apply Forall_forall. intros x Hx. now apply next_id_above.
    + cbn [fst snd players]. rewrite map_app. unfold jsonify.
      do 3 f_equal. f_equal. apply map_ext, P.
Qed.

Lemma list_views_in_id_order_witness :
  serve GET_api_event two_events_two_players
  = (Ok (mk_response
           (JList
              [ JDict [ ("id", JInt 1); ("name", JStr "Semis");
                        ("match_time",
                         JDateTime (mk_datetime 2024 2 29 18 30 0));
                        ("mix10", JBool false) ];
                JDict [ ("id", JInt 2); ("name", JStr "Quarters");
                        ("match_time",
                         JDateTime (mk_datetime 2024 2 28 9 5 0));
                        ("mix10", JBool false) ] ])
           200), two_events_two_players) /\
  serve GET_api_player two_events_two_players
  = (Ok (mk_response
           (JList
              [ JDict [ ("id", JInt 1); ("name", JStr "Alice");
                        ("event_id", JInt 1); ("team", JStr "TT") ];
                JDict [ ("id", JInt 2); ("name", JStr "Carol");
                        ("event_id", JInt 1); ("team", JNull) ] ])
           200), two_events_two_players) /\
  ascending (event_ids two_events_two_players) /\
  ascending (player_ids two_events_two_players).
Proof.
  destruct (list_views_in_id_order two_events_two_players)
    as (H1 & H2 & H3 & _).
  split; [exact H1|]. split; [exact H2|]. apply H3.
  unfold two_events_two_players, one_event_one_player.
  do 4 apply reachable_serve. apply reachable_empty.
Defined.

(** C9.  A delete of an event of the store is answered 200 and touches no
    player: the player table afterwards is the player table before, so
    every player, also one whose event_id names the deleted event, is still
    there with the same fields and is returned as before. *)
Theorem delete_event_keeps_players (d : database) (id : Z) :
  In id (event_ids d) ->
  let d' := after (DELETE_api_event_id id) d in
  outcome (DELETE_api_event_id id) d
  = Ok (mk_response (message "Event deleted successfully") 200) /\
  ~ In id (event_ids d') /\
  players d' = players d /\
  (forall p : Player, In p (players d) -> In p (players d')) /\
  (forall pid : Z,
     outcome (GET_api_player_id pid) d' = outcome (GET_api_player_id pid) d) /\
  outcome GET_api_player d' = outcome GET_api_player d.
Proof.
  intros H d'. destruct (get_event_present id d H) as (e & F & Hid & G).
  assert (D : d' = mk_database
                     (filter (fun r => negb (Event_id r =? id)) (events d))
                     (players d)).
  { unfold d', after. now rewrite serve_delete_event, G, Hid. }
  assert (P : players d' = players d) by now rewrite D.
  repeat split.
  - unfold outcome. now rewrite serve_delete_event, G.
  - apply find_event_None. rewrite D. unfold find_event. cbn [events].
    apply (find_filtered Event_id).
  - exact P.
  - intros p Hp. now rewrite P.
  - intros pid. unfold outcome. rewrite !serve_get_player.
    unfold find_player. now rewrite P.
  - unfold outcome. rewrite !serve_get_all_players. now rewrite P.
Qed.

Lemma delete_event_keeps_players_witness :
  event_ids (after (DELETE_api_event_id 1) one_event_one_player) = [] /\
  players (after (DELETE_api_event_id 1) one_event_one_player)
  = [mk_Player 1 (Some "Alice") (Some (Integer 1)) (Some TT)].
Proof.
  destruct (delete_event_keeps_players one_event_one_player 1)
    as (_ & _ & P & _).
  - vm_compute. now left.
  - split; [reflexivity|]. rewrite P. reflexivity.
Defined.

(** ** An empty team field *)



(** The row written by an UPDATE is the one a lookup of its id then
    finds. *)
Lemma find_replaced {A : Type} (key : A -> Z) (l : list A) (id : Z) (a : A) :
  key a = id -> In id (map key l) ->
  find (fun r => key r =? id)
       (map (fun r => if key r =? id then a else r) l) = Some a.
Proof.
  intros E. induction l as [|r l IH]; cbn [map In find]; [tauto|].
  intros H. destruct (key r =? id) eqn:K.
  - now rewrite E, Z.eqb_refl.
  - rewrite K. apply IH. destruct H as [H|H]; [|assumption].
    apply Z.eqb_neq in K. contradiction.
Qed.




(** * Further properties of the views *)

Lemma strptime_raises (arg : option string) (e : exn) :
  strptime arg = Raise e -> e = ValueError \/ e = TypeError.
Proof.
  unfold strptime. destruct arg as [s|]; [|intros [= <-]; now right].
  destruct (Strptime.regex _) as [t|]; [destruct (Strptime.valid t)|];
    intros [= <-]; now left.
Qed.

Lemma strptime_valid (arg : option string) (t : datetime) :
  strptime arg = Ok t -> Strptime.valid t = true.
Proof.
  unfold strptime. destruct arg as [s|]; [|discriminate].
  destruct (Strptime.regex _) as [t'|]; [|discriminate].
  destruct (Strptime.valid t') eqn:V; [|discriminate].
  now intros [= <-].
Qed.

Lemma Team_or_None_raises (team : option string) (e : exn) :
  Team_or_None team = Raise e -> e = KeyError.
Proof.
  unfold Team_or_None, Team_getitem. destruct team as [s|]; [|discriminate].
  destruct (str_truthy (Some s)); [|discriminate].
  destruct (String.eqb s "CT"); [discriminate|].
  destruct (String.eqb s "TT"); [discriminate|]. now intros [= <-].
Qed.

Lemma Boolean_bind_raises (v : pyvalue) (e : exn) :
  Boolean_bind v = Raise e -> e = StatementError.
Proof. destruct v; cbn; [discriminate|now intros [= <-]]. Qed.

Ltac name_exn :=
  repeat match goal with
         | H : strptime _ = Raise ?e |- _ =>
             is_var e; destruct (strptime_raises _ _ H); subst e
         | H : Team_or_None _ = Raise ?e |- _ =>
             is_var e; pose proof (Team_or_None_raises _ _ H); subst e
         | H : Boolean_bind _ = Raise ?e |- _ =>
             is_var e; pose proof (Boolean_bind_raises _ _ H); subst e
         | H : get_row _ _ = Raise ?e |- _ =>
             is_var e; destruct (get_row_raises _ _ _ H) as (? & ? & ?);
             subst e
         end.

Ltac choose :=
  first [ solve [eexists; split; [reflexivity|cbn; tauto]]
        | solve [split; [eassumption|reflexivity]]
        | solve [reflexivity]
        | (left; choose)
        | (right; choose) ].

(** X1.  A request that does not succeed writes nothing: when a view raises,
    and when it answers 404, the database after the request is the database
    before it. *)
Theorem unsuccessful_request_changes_nothing (r : request) (d : database) :
  (forall e : exn, outcome r d = Raise e -> after r d = d) /\
  (forall resp : response,
     outcome r d = Ok resp -> status resp = 404 -> after r d = d).
Proof.
  split.
  - intros e. by_view r; split_cases; cbn [fst snd];
      solve [reflexivity | discriminate].
  - intros resp. by_view r; split_cases; cbn [fst snd];
      try reflexivity; try discriminate;
      intros [= <-]; cbn [status jsonify jsonify_status]; discriminate.
Qed.

Lemma unsuccessful_request_changes_nothing_witness :
  after (POST_api_event finals) one_event_one_player
  = one_event_one_player /\
  after (GET_api_event_id (2 ^ 63)) one_event_one_player
  = one_event_one_player /\
  after (DELETE_api_player_id 9) one_event_one_player = one_event_one_player.
Proof.
  split; [|split].
  - apply (proj1 (unsuccessful_request_changes_nothing
                    (POST_api_event finals) one_event_one_player)
             StatementError).
    reflexivity.
  - apply (proj1 (unsuccessful_request_changes_nothing
                    (GET_api_event_id (2 ^ 63)) one_event_one_player)
             OverflowError).
    reflexivity.
  - apply (proj2 (unsuccessful_request_changes_nothing
                    (DELETE_api_player_id 9) one_event_one_player)
             (mk_response (message "Player not found") 404));
      reflexivity.
Defined.

(** X2.  What each view can answer.  The list views answer 200.  A get
    answers 200 or 404 and a delete answers 200 or 404, unless the id does
    not fit 64 bits, when the lookup raises OverflowError; the list and get
    views leave the database as it was.  A create answers 201 or raises; an
    update answers 200 or 404 or raises.  The event views raise nothing but
    ValueError, TypeError, StatementError, IntegrityError and that
    OverflowError; the player views nothing but KeyError, IntegrityError
    and that OverflowError. *)
Theorem what_views_answer (r : request) (d : database) :
  match r with
  | GET_api_event | GET_api_player =>
      exists resp, serve r d = (Ok resp, d) /\ status resp = 200
  | GET_api_event_id id | GET_api_player_id id =>
      (exists resp,
         serve r d = (Ok resp, d) /\ (status resp = 200 \/ status resp = 404))
      \/ (fits_int64 id = false /\ serve r d = (Raise OverflowError, d))
  | DELETE_api_event_id id | DELETE_api_player_id id =>
      (exists resp,
         outcome r d = Ok resp /\ (status resp = 200 \/ status resp = 404))
      \/ (fits_int64 id = false /\ outcome r d = Raise OverflowError)
  | POST_api_event _ =>
      (exists resp, outcome r d = Ok resp /\ status resp = 201) \/
      outcome r d = Raise ValueError \/ outcome r d = Raise TypeError \/
      outcome r d = Raise StatementError \/
      outcome r d = Raise IntegrityError
  | PUT_api_event_id id _ =>
      (exists resp,
         outcome r d = Ok resp /\ (status resp = 200 \/ status resp = 404)) \/
      outcome r d = Raise ValueError \/ outcome r d = Raise TypeError \/
      outcome r d = Raise StatementError \/
      outcome r d = Raise IntegrityError \/
      (fits_int64 id = false /\ outcome r d = Raise OverflowError)
  | POST_api_player _ =>
      (exists resp, outcome r d = Ok resp /\ status resp = 201) \/
      outcome r d = Raise KeyError \/ outcome r d = Raise IntegrityError
  | PUT_api_player_id id _ =>
      (exists resp,
         outcome r d = Ok resp /\ (status resp = 200 \/ status resp = 404)) \/
      outcome r d = Raise KeyError \/ outcome r d = Raise IntegrityError \/
      (fits_int64 id = false /\ outcome r d = Raise OverflowError)
  end.
Proof.
  by_view r; split_cases; name_exn; cbn [fst]; choose.
Qed.

(** ** Successful updates *)

Lemma update_event_succeeds
  (d : database) (id : Z) (data : form) (name : string) (t : datetime) :
  In id (event_ids d) ->
  form_get "name" data = Some name ->
  strptime (form_get "match_time" data) = Ok t ->
  form_get "mix10" data = None ->
  serve (PUT_api_event_id id data) d
  = (Ok (mk_response (message "Event updated successfully") 200),
     mk_database
       (map (fun r => if Event_id r =? id
                      then mk_Event id (Some name) t false
                      else r) (events d))
       (players d)).
Proof.
  intros Hid Hn Ht Hm.
  destruct (get_event_present id d Hid) as (e & _ & He & G).
  rewrite serve_update_event, G, Ht, Hn, He. unfold form_get_default.
  now rewrite Hm.
Qed.

Lemma update_player_succeeds
  (d : database) (id : Z) (data : form) (name event_id : string)
  (team : option Team) :
  In id (player_ids d) ->
  form_get "name" data = Some name ->
  form_get "event_id" data = Some event_id ->
  Team_or_None (form_get "team" data) = Ok team ->
  serve (PUT_api_player_id id data) d
  = (Ok (mk_response (message "Player updated successfully") 200),
     mk_database
       (events d)
       (map (fun r => if Player_id r =? id
                      then mk_Player id (Some name)
                             (Some (INTEGER_affinity event_id)) team
                      else r) (players d))).
Proof.
  intros Hid Hn He Ht.
  destruct (get_player_present id d Hid) as (p & _ & Hp & G).
  now rewrite serve_update_player, G, Ht, Hn, He, Hp.
Qed.

(** X3.  A required field that is absent is not answered with a response.
    Without match_time, strptime is called on None and the event views raise
    TypeError; without name (the match_time being accepted and no mix10
    given) the commit of the event is refused with IntegrityError; without
    name or without event_id (the team being accepted) the commit of the
    player is refused with IntegrityError.  So for a create and for an
    update of an id of the store, and the database stays as it was. *)
Theorem absent_required_field_raises (d : database) (data : form) :
  (form_get "match_time" data = None ->
   serve (POST_api_event data) d = (Raise TypeError, d) /\
   forall id : Z, In id (event_ids d) ->
     serve (PUT_api_event_id id data) d = (Raise TypeError, d)) /\
  (form_get "name" data = None ->
   form_get "mix10" data = None ->
   forall t : datetime, strptime (form_get "match_time" data) = Ok t ->
   serve (POST_api_event data) d = (Raise IntegrityError, d) /\
   forall id : Z, In id (event_ids d) ->
     serve (PUT_api_event_id id data) d = (Raise IntegrityError, d)) /\
  (form_get "name" data = None \/ form_get "event_id" data = None ->
   forall team : option Team,
   Team_or_None (form_get "team" data) = Ok team ->
   serve (POST_api_player data) d = (Raise IntegrityError, d) /\
   forall id : Z, In id (player_ids d) ->
     serve (PUT_api_player_id id data) d = (Raise IntegrityError, d)).
Proof.
  split; [|split].
  - intros H. split.
    + now rewrite serve_create_event, H.
    + intros id Hid. destruct (get_event_present id d Hid) as (e & _ & _ & G).
      now rewrite serve_update_event, G, H.
  - intros H Hm t Ht. unfold form_get_default. split.
    + rewrite serve_create_event, Ht, H. unfold form_get_default.
      now rewrite Hm.
    + intros id Hid. destruct (get_event_present id d Hid) as (e & _ & _ & G).
      rewrite serve_update_event, G, Ht, H. unfold form_get_default.
      now rewrite Hm.
  - intros H team Ht. split.
    + rewrite serve_create_player, Ht.
      destruct H as [-> | ->]; [reflexivity|].
      now destruct (form_get "name" data).
    + intros id Hid.
      destruct (get_player_present id d Hid) as (p & _ & _ & G).
      rewrite serve_update_player, G, Ht.
      destruct H as [-> | ->]; [reflexivity|].
      now destruct (form_get "name" data).
Qed.

Lemma absent_required_field_raises_witness :
  serve (PUT_api_event_id 1 [("name", "Finals")]) one_event_one_player
  = (Raise TypeError, one_event_one_player) /\
  serve (POST_api_event [("match_time", "2024-01-01T10:00:00")])
    one_event_one_player
  = (Raise IntegrityError, one_event_one_player) /\
  serve (PUT_api_player_id 1 [("name", "Alice")]) one_event_one_player
  = (Raise IntegrityError, one_event_one_player).
Proof.
  split; [|split].
  - destruct (absent_required_field_raises one_event_one_player
                [("name", "Finals")]) as ([_ H] & _); [reflexivity|].
    apply (H 1). vm_compute. now left.
  - destruct (absent_required_field_raises one_event_one_player
                [("match_time", "2024-01-01T10:00:00")]) as (_ & H & _).
    apply (H eq_refl eq_refl (mk_datetime 2024 1 1 10 0 0) eq_refl).
  - destruct (absent_required_field_raises one_event_one_player
                [("name", "Alice")]) as (_ & _ & H).
    destruct (H (or_intror eq_refl) None eq_refl) as [_ H'].
    apply (H' 1). vm_compute. now left.
Defined.

(** X4.  Without a mix10 field the event gets mix10 = False: a create
    stores the event with the boolean False and a get returns
    "mix10": false; an update sets mix10 back to False whatever the event
    held before. *)
Theorem mix10_defaults_to_False
  (d : database) (data : form) (name : string) (t : datetime) :
  form_get "mix10" data = None ->
  form_get "name" data = Some name ->
  strptime (form_get "match_time" data) = Ok t ->
  let returned (id : Z) :=
    Ok (mk_response
          (JDict [ ("id", JInt id); ("name", JStr name);
                   ("match_time", JDateTime t); ("mix10", JBool false) ])
          200) in
  outcome (GET_api_event_id (next_id (event_ids d)))
    (after (POST_api_event data) d)
  = returned (next_id (event_ids d)) /\
  forall id : Z, In id (event_ids d) ->
    outcome (GET_api_event_id id) (after (PUT_api_event_id id data) d)
    = returned id.
Proof.
  intros Hm Hn Ht returned. split.
  - unfold outcome, after.
    rewrite serve_create_event, Ht, Hn, serve_get_event.
    unfold form_get_default, find_event. rewrite Hm.
    cbn [fst snd events Boolean_bind].
    now rewrite (find_fresh Event_id).
  - intros id Hid. unfold outcome, after.
    rewrite (update_event_succeeds d id data name t Hid Hn Ht Hm).
    rewrite serve_get_event. unfold find_event. cbn [fst snd events].
    now rewrite (find_replaced Event_id).
Qed.

Lemma mix10_defaults_to_False_witness :
  outcome (GET_api_event_id 1)
    (after (PUT_api_event_id 1 quarters) one_event_one_player)
  = Ok (mk_response
          (JDict [ ("id", JInt 1); ("name", JStr "Quarters");
                   ("match_time", JDateTime (mk_datetime 2024 2 28 9 5 0));
                   ("mix10", JBool false) ])
          200).
Proof.
  apply (mix10_defaults_to_False one_event_one_player quarters
           "Quarters" (mk_datetime 2024 2 28 9 5 0) eq_refl eq_refl eq_refl).
  vm_compute. now left.
Defined.

(** X5.  An update of an event of the store with a name and an accepted
    match_time.  Without a mix10 field it is answered 200 and overwrites
    name and match_time with what the form gives and mix10 with False: a
    get of the id then returns the id with exactly these values; the ids of
    the event table and their order stay as they were, and so does the
    player table.  With a mix10 field, whatever its string, the commit
    raises StatementError and the database stays as it was. *)
Theorem update_event_then_get
  (d : database) (id : Z) (data : form) (name : string) (t : datetime) :
  In id (event_ids d) ->
  form_get "name" data = Some name ->
  strptime (form_get "match_time" data) = Ok t ->
  let d' := after (PUT_api_event_id id data) d in
  (form_get "mix10" data = None ->
   outcome (PUT_api_event_id id data) d
   = Ok (mk_response (message "Event updated successfully") 200) /\
   serve (GET_api_event_id id) d'
   = (Ok (mk_response
            (JDict [ ("id", JInt id); ("name", JStr name);
                     ("match_time", JDateTime t); ("mix10", JBool false) ])
            200), d') /\
   event_ids d' = event_ids d /\
   players d' = players d) /\
  (forall s : string, form_get "mix10" data = Some s ->
   serve (PUT_api_event_id id data) d = (Raise StatementError, d)).
Proof.
  intros Hid Hn Ht d'. split.
  - intros Hm.
    pose proof (update_event_succeeds d id data name t Hid Hn Ht Hm) as U.
    set (event := mk_Event id (Some name) t false) in U.
    assert (D : d' = mk_database
                       (map (fun r => if Event_id r =? id then event else r)
                          (events d)) (players d)).
    { unfold d', after. now rewrite U. }
    repeat split.
    + unfold outcome. now rewrite U.
    + rewrite serve_get_event. rewrite D at 1.
      unfold find_event. cbn [events].
      now rewrite (find_replaced Event_id).
    + rewrite D. unfold event_ids. cbn [events].
      now apply (keys_replaced Event_id).
    + now rewrite D.
  - intros s Hm. destruct (get_event_present id d Hid) as (e & _ & _ & G).
    rewrite serve_update_event, G, Ht. unfold form_get_default.
    now rewrite Hm.
Qed.

Lemma update_event_then_get_witness :
  serve (GET_api_event_id 1)
    (after (PUT_api_event_id 1 quarters) one_event_one_player)
  = (Ok (mk_response
           (JDict [ ("id", JInt 1); ("name", JStr "Quarters");
                    ("match_time", JDateTime (mk_datetime 2024 2 28 9 5 0));
                    ("mix10", JBool false) ])
           200),
     after (PUT_api_event_id 1 quarters) one_event_one_player) /\
  serve (PUT_api_event_id 1 finals) one_event_one_player
  = (Raise StatementError, one_event_one_player).
Proof.
  split.
  - apply (proj1 (update_event_then_get one_event_one_player 1 quarters
                    "Quarters" (mk_datetime 2024 2 28 9 5 0)
                    (or_introl eq_refl) eq_refl eq_refl)).
    reflexivity.
  - apply (proj2 (update_event_then_get one_event_one_player 1 finals
                    "Finals" (mk_datetime 2024 1 1 10 0 0)
                    (or_introl eq_refl) eq_refl eq_refl) "true").
    reflexivity.
Defined.

(** X6.  An update of a player of the store with a name, an event_id that
    is a decimal integer and an accepted team is answered 200 and
    overwrites name, event_id and team with what the form gives: a get of
    the id then returns the id with exactly these three values, the
    event_id as the number and the team as null when the form has none or
    an empty one.  The ids of the player table and their order stay as they
    were, and so does the event table. *)
Theorem update_player_then_get
  (d : database) (id : Z) (data : form) (name event_id : string) (n : Z)
  (team : option Team) :
  In id (player_ids d) ->
  form_get "name" data = Some name ->
  form_get "event_id" data = Some event_id ->
  integer_literal event_id = Some n ->
  Team_or_None (form_get "team" data) = Ok team ->
  let d' := after (PUT_api_player_id id data) d in
  outcome (PUT_api_player_id id data) d
  = Ok (mk_response (message "Player updated successfully") 200) /\
  serve (GET_api_player_id id) d'
  = (Ok (mk_response
           (JDict [ ("id", JInt id); ("name", JStr name);
                    ("event_id", JInt n);
                    ("team", if str_truthy (form_get "team" data)
                             then json_of_str (form_get "team" data)
                             else JNull) ])
           200), d') /\
  player_ids d' = player_ids d /\
  events d' = events d.
Proof.
  intros Hid Hn He Hi Ht d'.
  pose proof (update_player_succeeds d id data name event_id team
                Hid Hn He Ht) as U.
  assert (A : INTEGER_affinity event_id = Integer n).
  { unfold INTEGER_affinity. now rewrite Hi. }
  rewrite A in U.
  set (player := mk_Player id (Some name) (Some (Integer n)) team) in U.
  assert (D : d' = mk_database (events d)
                     (map (fun r => if Player_id r =? id then player else r)
                        (players d))).
  { unfold d', after. now rewrite U. }
  assert (T : json_of_str (team_value_or_None team)
              = if str_truthy (form_get "team" data)
                then json_of_str (form_get "team" data) else JNull).
  { revert Ht. unfold Team_or_None, Team_getitem.
    destruct (form_get "team" data) as [s|]; [|now intros [= <-]].
    destruct (str_truthy (Some s)); [|now intros [= <-]].
    destruct (String.eqb_spec s "CT") as [->|_]; [now intros [= <-]|].
    destruct (String.eqb_spec s "TT") as [->|_]; [now intros [= <-]|].
    discriminate. }
  repeat split.
  - unfold outcome. now rewrite U.
  - rewrite serve_get_player. rewrite D at 1.
    unfold find_player. cbn [players].
    rewrite (find_replaced Player_id) by (reflexivity || assumption).
    cbn [get_row]. unfold jsonify, player_dict, player.
    cbn [Player_id Player_name Player_event_id Player_team json_of_str
         json_of_column].
    now rewrite T.
  - rewrite D. unfold player_ids. cbn [players].
    now apply (keys_replaced Player_id).
  - now rewrite D.
Qed.

Lemma update_player_then_get_witness :
  serve (GET_api_player_id 1)
    (after (PUT_api_player_id 1 bob_team_CT) one_event_one_player)
  = (Ok (mk_response
           (JDict [ ("id", JInt 1); ("name", JStr "Bob");
                    ("event_id", JInt 7); ("team", JStr "CT") ])
           200),
     after (PUT_api_player_id 1 bob_team_CT) one_event_one_player).
Proof.
  apply (update_player_then_get one_event_one_player 1 bob_team_CT "Bob" "7"
           7 (Some CT)); try reflexivity.
  vm_compute. now left.
Defined.

(** ** What a write leaves alone *)

Lemma find_replaced_other {A : Type} (key : A -> Z) (l : list A)
  (id id' : Z) (a : A) :
  key a = id -> id' <> id ->
  find (fun r => key r =? id')
       (map (fun r => if key r =? id then a else r) l)
  = find (fun r => key r =? id') l.
Proof.
  intros E N. induction l as [|r l IH]; cbn [map find]; [reflexivity|].
  destruct (Z.eqb_spec (key r) id) as [K|K].
  - rewrite E. destruct (Z.eqb_spec id id'); [congruence|].
    destruct (Z.eqb_spec (key r) id'); [congruence|]. exact IH.
  - destruct (key r =? id'); [reflexivity|exact IH].
Qed.

Lemma find_filtered_other {A : Type} (key : A -> Z) (l : list A)
  (id id' : Z) :
  id' <> id ->
  find (fun r => key r =? id') (filter (fun r => negb (key r =? id)) l)
  = find (fun r => key r =? id') l.
Proof.
  intros N. induction l as [|r l IH]; cbn [filter find]; [reflexivity|].
  destruct (Z.eqb_spec (key r) id) as [K|K]; cbn [negb find].
  - destruct (Z.eqb_spec (key r) id'); [congruence|]. exact IH.
  - destruct (key r =? id'); [reflexivity|exact IH].
Qed.

Lemma find_appended_other {A : Type} (key : A -> Z) (l : list A)
  (id' : Z) (a : A) :
  id' <> key a ->
  find (fun r => key r =? id') (l ++ [a]) = find (fun r => key r =? id') l.
Proof.
  intros N. induction l as [|r l IH]; cbn [app find].
  - destruct (Z.eqb_spec (key a) id'); [congruence|reflexivity].
  - destruct (key r =? id'); [reflexivity|exact IH].
Qed.

Lemma find_event_after_update (d : database) (data : form) (id id' : Z) :
  id' <> id ->
  find_event id' (after (PUT_api_event_id id data) d) = find_event id' d.
Proof.
  intros N. unfold after. rewrite serve_update_event.
  destruct (get_row _ id) as [[e|]|] eqn:G; try reflexivity.
  destruct (get_event_Some _ _ _ G) as (_ & He & _).
  split_cases; try reflexivity.
  unfold find_event. cbn [snd events]. rewrite He.
  now apply (find_replaced_other Event_id).
Qed.

Lemma find_player_after_update (d : database) (data : form) (id id' : Z) :
  id' <> id ->
  find_player id' (after (PUT_api_player_id id data) d) = find_player id' d.
Proof.
  intros N. unfold after. rewrite serve_update_player.
  destruct (get_row _ id) as [[p|]|] eqn:G; try reflexivity.
  destruct (get_player_Some _ _ _ G) as (_ & Hp & _).
  split_cases; try reflexivity.
  unfold find_player. cbn [snd players]. rewrite Hp.
  now apply (find_replaced_other Player_id).
Qed.

Lemma find_event_after_delete (d : database) (id id' : Z) :
  id' <> id ->
  find_event id' (after (DELETE_api_event_id id) d) = find_event id' d.
Proof.
  intros N. unfold after. rewrite serve_delete_event.
  destruct (get_row _ id) as [[e|]|] eqn:G; try reflexivity.
  destruct (get_event_Some _ _ _ G) as (_ & He & _).
  unfold find_event. cbn [snd events]. rewrite He.
  now apply (find_filtered_other Event_id).
Qed.

Lemma find_player_after_delete (d : database) (id id' : Z) :
  id' <> id ->
  find_player id' (after (DELETE_api_player_id id) d) = find_player id' d.
Proof.
  intros N. unfold after. rewrite serve_delete_player.
  destruct (get_row _ id) as [[p|]|] eqn:G; try reflexivity.
  destruct (get_player_Some _ _ _ G) as (_ & Hp & _).
  unfold find_player. cbn [snd players]. rewrite Hp.
  now apply (find_filtered_other Player_id).
Qed.

Lemma find_event_after_create (d : database) (data : form) (id' : Z) :
  id' <> next_id (event_ids d) ->
  find_event id' (after (POST_api_event data) d) = find_event id' d.
Proof.
  intros N. unfold after. rewrite serve_create_event.
  split_cases; try reflexivity.
  unfold find_event. cbn [snd events].
  now apply (find_appended_other Event_id).
Qed.

Lemma find_player_after_create (d : database) (data : form) (id' : Z) :
  id' <> next_id (player_ids d) ->
  find_player id' (after (POST_api_player data) d) = find_player id' d.
Proof.
  intros N. unfold after. rewrite serve_create_player.
  split_cases; try reflexivity.
  unfold find_player. cbn [snd players].
  now apply (find_appended_other Player_id).
Qed.

(** X7.  A write touches one record only.  After an update or a delete of
    the id [id], whatever its outcome, a get of any other id answers what it
    answered before; after a create, a get of any id other than the one the
    new record receives answers what it answered before.  So for events, so
    for players. *)
Theorem writes_leave_other_records
  (d : database) (data : form) (id id' : Z) :
  (id' <> id ->
   outcome (GET_api_event_id id') (after (PUT_api_event_id id data) d)
   = outcome (GET_api_event_id id') d /\
   outcome (GET_api_event_id id') (after (DELETE_api_event_id id) d)
   = outcome (GET_api_event_id id') d /\
   outcome (GET_api_player_id id') (after (PUT_api_player_id id data) d)
   = outcome (GET_api_player_id id') d /\
   outcome (GET_api_player_id id') (after (DELETE_api_player_id id) d)
   = outcome (GET_api_player_id id') d) /\
  (id' <> next_id (event_ids d) ->
   outcome (GET_api_event_id id') (after (POST_api_event data) d)
   = outcome (GET_api_event_id id') d) /\
  (id' <> next_id (player_ids d) ->
   outcome (GET_api_player_id id') (after (POST_api_player data) d)
   = outcome (GET_api_player_id id') d).
Proof.
  unfold outcome. rewrite !serve_get_event, !serve_get_player. cbn [fst].
  split; [|split]; intros N.
  - now rewrite find_event_after_update, find_event_after_delete,
      find_player_after_update, find_player_after_delete.
  - now rewrite find_event_after_create.
  - now rewrite find_player_after_create.
Qed.

Lemma writes_leave_other_records_witness :
  outcome (GET_api_event_id 1)
    (after (DELETE_api_event_id 2) two_events_two_players)
  = outcome (GET_api_event_id 1) two_events_two_players /\
  outcome (GET_api_player_id 1)
    (after (POST_api_player bob_team_CT) one_event_one_player)
  = outcome (GET_api_player_id 1) one_event_one_player.
Proof.
  split.
  - apply (proj1 (writes_leave_other_records two_events_two_players
                    [] 2 1)).
    discriminate.
  - apply (proj2 (proj2 (writes_leave_other_records one_event_one_player
                           bob_team_CT 0 1))).
    vm_compute. discriminate.
Defined.

(** X8.  Each view keeps to its table: no request on events changes the
    player table and no request on players changes the event table,
    whatever the outcome. *)
Theorem views_keep_to_their_table (r : request) (d : database) :
  (is_event_request r = true -> players (after r d) = players d) /\
  (is_event_request r = false -> events (after r d) = events d).
Proof.
  split; intros K; by_view r; try discriminate K; split_cases; reflexivity.
Qed.

Lemma views_keep_to_their_table_witness :
  players (after (PUT_api_event_id 1 quarters) one_event_one_player)
  = players one_event_one_player /\
  events (after (DELETE_api_player_id 1) one_event_one_player)
  = events one_event_one_player.
Proof.
  split.
  - now apply (proj1 (views_keep_to_their_table (PUT_api_event_id 1 quarters)
                        one_event_one_player)).
  - now apply (proj2 (views_keep_to_their_table (DELETE_api_player_id 1)
                        one_event_one_player)).
Defined.

(** X9.  No view looks at the other table.  What a request on players
    answers, and the player table it leaves, are the same in two databases
    with the same player table, whatever their events: a player is created
    or moved to an event_id without any check that such an event exists.
    Likewise a request on events in two databases with the same event
    table. *)
Theorem views_ignore_the_other_table (r : request) (d1 d2 : database) :
  (is_event_request r = false -> players d1 = players d2 ->
   outcome r d1 = outcome r d2 /\
   players (after r d1) = players (after r d2)) /\
  (is_event_request r = true -> events d1 = events d2 ->
   outcome r d1 = outcome r d2 /\
   events (after r d1) = events (after r d2)).
Proof.
  split; intros K E; by_view r; try discriminate K;
    unfold find_player, find_event, player_ids, event_ids; rewrite E;
    split_cases; cbn [fst snd events players]; split; congruence.
Qed.

Lemma views_ignore_the_other_table_witness :
  outcome (POST_api_player bob_team_CT)
    (after (POST_api_event semis) empty_database)
  = outcome (POST_api_player bob_team_CT) empty_database /\
  players (after (POST_api_player bob_team_CT)
             (after (POST_api_event semis) empty_database))
  = players (after (POST_api_player bob_team_CT) empty_database).
Proof.
  apply (proj1 (views_ignore_the_other_table (POST_api_player bob_team_CT)
                  (after (POST_api_event semis) empty_database)
                  empty_database));
    reflexivity.
Defined.

(** ** What holds of every database the service reaches *)

Lemma next_id_from_1 (ids : list Z) : 1 <= next_id ids.
Proof.
  unfold next_id. induction ids as [|x ids IH]; cbn [fold_right]; lia.
Qed.

Lemma ascending_NoDup (ids : list Z) : ascending ids -> NoDup ids.
Proof.
  induction 1 as [|x ids S IH F]; constructor; [|assumption].
  intros H. rewrite Forall_forall in F. specialize (F x H). lia.
Qed.

Lemma Forall_replaced {A : Type} (P : A -> Prop) (f : A -> bool) (a : A)
  (l : list A) :
  P a -> Forall P l -> Forall P (map (fun r => if f r then a else r) l).
Proof.
  intros Pa. induction 1 as [|r l Pr _ IH]; cbn [map]; constructor;
    [now destruct (f r)|assumption].
Qed.

Lemma Forall_filtered {A : Type} (P : A -> Prop) (f : A -> bool)
  (l : list A) :
  Forall P l -> Forall P (filter f l).
Proof.
  induction 1 as [|r l Pr _ IH]; cbn [filter]; [constructor|].
  destruct (f r); [now constructor|assumption].
Qed.

Lemma after_events_ok (r : request) (d : database) :
  Forall event_ok (events d) -> Forall event_ok (events (after r d)).
Proof.
  intros H. by_view r; try (split_cases; exact H).
  - destruct (strptime _) as [t|] eqn:S; [|exact H].
    destruct (Boolean_bind _) as [b|]; [|exact H].
    destruct (form_get "name" data) as [name|]; [|exact H].
    cbn [snd events]. apply Forall_app. split; [exact H|].
    constructor; [|constructor]. repeat split; cbn.
    + apply next_id_from_1.
    + discriminate.
    + exact (strptime_valid _ _ S).
  - destruct (get_row _ event_id) as [[e|]|] eqn:G; try exact H.
    destruct (get_event_Some _ _ _ G) as (_ & _ & He).
    destruct (strptime _) as [t|] eqn:S; [|exact H].
    destruct (Boolean_bind _) as [b|]; [|exact H].
    destruct (form_get "name" data) as [name|]; [|exact H].
    cbn [snd events]. apply Forall_replaced; [|exact H].
    rewrite Forall_forall in H. destruct (H e He) as (H1 & _).
    repeat split; cbn.
    + exact H1.
    + discriminate.
    + exact (strptime_valid _ _ S).
  - destruct (get_row _ event_id) as [[e|]|]; try exact H.
    cbn [snd events]. now apply Forall_filtered.
Qed.

Lemma after_players_ok (r : request) (d : database) :
  Forall player_ok (players d) -> Forall player_ok (players (after r d)).
Proof.
  intros H. by_view r; try (split_cases; exact H).
  - destruct (Team_or_None _) as [team|]; [|exact H].
    destruct (form_get "name" data) as [name|]; [|exact H].
    destruct (form_get "event_id" data) as [event_id|]; [|exact H].
    cbn [snd players]. apply Forall_app. split; [exact H|].
    constructor; [|constructor]. repeat split; cbn;
      [apply next_id_from_1|discriminate|discriminate].
  - destruct (get_row _ player_id) as [[p|]|] eqn:G; try exact H.
    destruct (get_player_Some _ _ _ G) as (_ & _ & Hp).
    destruct (Team_or_None _) as [team|]; [|exact H].
    destruct (form_get "name" data) as [name|]; [|exact H].
    destruct (form_get "event_id" data) as [event_id|]; [|exact H].
    cbn [snd players]. apply Forall_replaced; [|exact H].
    rewrite Forall_forall in H. destruct (H p Hp) as (H1 & _).
    repeat split; cbn; [exact H1|discriminate|discriminate].
  - destruct (get_row _ player_id) as [[p|]|]; try exact H.
    cbn [snd players]. now apply Forall_filtered.
Qed.

(** X10.  In every database the service reaches from the empty one, no two
    events share an id and no two players do, every id is at least 1, every
    event has a name and a match_time that is a date of the calendar with a
    time of day, and every player has a name and an event_id. *)
Theorem reachable_integrity (d : database) :
  reachable d ->
  NoDup (event_ids d) /\ NoDup (player_ids d) /\
  Forall event_ok (events d) /\ Forall player_ok (players d).
Proof.
  intros R.
  destruct (reachable_ascending d R) as [Ae Ap].
  split; [now apply ascending_NoDup|]. split; [now apply ascending_NoDup|].
  induction R as [|r d R IH].
  - split; constructor.
  - destruct (reachable_ascending d R) as [Ae' Ap'].
    destruct (IH Ae' Ap') as [He Hp].
    split; [now apply after_events_ok|now apply after_players_ok].
Qed.

Lemma reachable_integrity_witness :
  NoDup (event_ids two_events_two_players) /\
  NoDup (player_ids two_events_two_players) /\
  Forall event_ok (events two_events_two_players) /\
  Forall player_ok (players two_events_two_players).
Proof.
  apply reachable_integrity.
  unfold two_events_two_players, one_event_one_player.
  do 4 apply reachable_serve. apply reachable_empty.
Defined.

Section Unique_keys.
Context {A : Type} (key : A -> Z).

Lemma find_member (l : list A) (a : A) :
  NoDup (map key l) -> In a l ->
  find (fun r => key r =? key a) l = Some a.
Proof.
  induction l as [|r l IH]; cbn [map In find]; [tauto|].
  intros N H. inversion N as [|? ? Nr Nl]; subst.
  destruct H as [->|H]; [now rewrite Z.eqb_refl|].
  destruct (Z.eqb_spec (key r) (key a)) as [E|_]; [|now apply IH].
  exfalso. apply Nr. rewrite E. now apply in_map.
Qed.

Lemma filter_keeps_all (f : A -> bool) (l : list A) :
  (forall x, In x l -> f x = true) -> filter f l = l.
Proof.
  induction l as [|r l IH]; cbn [filter]; intros H; [reflexivity|].
  rewrite (H r (or_introl eq_refl)). f_equal. apply IH.
  intros x Hx. apply H. now right.
Qed.

Lemma filter_takes_one_out (l1 l2 : list A) (a : A) :
  NoDup (map key (l1 ++ a :: l2)) ->
  filter (fun r => negb (key r =? key a)) (l1 ++ a :: l2)
  = (l1 ++ l2)%list.
Proof.
  rewrite map_app. cbn [map]. intros N.
  pose proof (NoDup_remove_2 _ _ _ N) as Na.
  rewrite filter_app. cbn [filter]. rewrite Z.eqb_refl. cbn [negb].
  assert (K : forall l,
              (forall x, In x l -> In (key x) (map key l1 ++ map key l2)) ->
              filter (fun r => negb (key r =? key a)) l = l).
  { intros l H. apply filter_keeps_all. intros x Hx.
    destruct (Z.eqb_spec (key x) (key a)) as [E|_]; [|reflexivity].
    exfalso. apply Na. rewrite <- E. now apply H. }
  rewrite (K l1), (K l2); [reflexivity| |].
  - intros x Hx. apply in_or_app. right. now apply in_map.
  - intros x Hx. apply in_or_app. left. now apply in_map.
Qed.
End Unique_keys.



(** X12.  In every database the service reaches, the delete of a record of
    a table takes that one row out and nothing else: the rows before it and
    the rows after it stay, in their order. *)
Theorem delete_takes_one_row_out (d : database) :
  reachable d ->
  (forall e : Event, In e (events d) ->
     exists l1 l2 : list Event,
       events d = (l1 ++ e :: l2)%list /\
       events (after (DELETE_api_event_id (Event_id e)) d)
       = (l1 ++ l2)%list) /\
  (forall p : Player, In p (players d) ->
     exists l1 l2 : list Player,
       players d = (l1 ++ p :: l2)%list /\
       players (after (DELETE_api_player_id (Player_id p)) d)
       = (l1 ++ l2)%list).
Proof.
  intros R. destruct (reachable_ascending d R) as [Ae Ap].
  apply ascending_NoDup in Ae, Ap. unfold event_ids in Ae.
  unfold player_ids in Ap. split.
  - intros e He. destruct (in_split _ _ He) as (l1 & l2 & E).
    exists l1, l2. split; [exact E|].
    unfold after. rewrite serve_delete_event. unfold find_event.
    rewrite (find_member Event_id) by assumption. cbn [get_row snd events].
    rewrite E in *. now apply (filter_takes_one_out Event_id).
  - intros p Hp. destruct (in_split _ _ Hp) as (l1 & l2 & E).
    exists l1, l2. split; [exact E|].
    unfold after. rewrite serve_delete_player. unfold find_player.
    rewrite (find_member Player_id) by assumption. cbn [get_row snd players].
    rewrite E in *. now apply (filter_takes_one_out Player_id).
Qed.

Lemma delete_takes_one_row_out_witness :
  exists l1 l2 : list Event,
    events two_events_two_players
    = (l1 ++ mk_Event 1 (Some "Semis") (mk_datetime 2024 2 29 18 30 0)
                      false :: l2)%list /\
    events (after (DELETE_api_event_id 1) two_events_two_players)
    = (l1 ++ l2)%list.
Proof.
  assert (R : reachable two_events_two_players).
  { unfold two_events_two_players, one_event_one_player.
    do 4 apply reachable_serve. apply reachable_empty. }
  apply (proj1 (delete_takes_one_row_out _ R)
           (mk_Event 1 (Some "Semis") (mk_datetime 2024 2 29 18 30 0)
              false)).
  vm_compute. now left.
Defined.

(** ** Repeating a request *)

Lemma replaced_twice {A : Type} (key : A -> Z) (id : Z) (a : A)
  (l : list A) :
  key a = id ->
  map (fun r => if key r =? id then a else r)
      (map (fun r => if key r =? id then a else r) l)
  = map (fun r => if key r =? id then a else r) l.
Proof.
  intros E. rewrite map_map. apply map_ext. intros r.
  destruct (key r =? id) eqn:K; [|now rewrite K].
  now rewrite E, Z.eqb_refl.
Qed.

Lemma serve_is_pair (r : request) (d : database) :
  serve r d = (outcome r d, after r d).
Proof. unfold outcome, after. now destruct (serve r d). Qed.

Lemma update_event_twice (id : Z) (data : form) (d : database) :
  serve (PUT_api_event_id id data) (after (PUT_api_event_id id data) d)
  = serve (PUT_api_event_id id data) d.
Proof.
  unfold after. rewrite (serve_update_event id data d).
  destruct (get_row (find_event id d) id) as [[e|]|] eqn:G; cbn [snd];
    try (now rewrite serve_update_event, G).
  destruct (strptime (form_get "match_time" data)) as [t|] eqn:S.
  2:{ cbn [snd]. now rewrite serve_update_event, G, S. }
  destruct (Boolean_bind _) as [b|] eqn:B.
  2:{ cbn [snd]. now rewrite serve_update_event, G, S, B. }
  destruct (form_get "name" data) as [name|] eqn:N.
  2:{ cbn [snd]. now rewrite serve_update_event, G, S, B, N. }
  cbn [snd]. destruct (get_event_Some _ _ _ G) as (F & He & Hin).
  rewrite He. set (e' := mk_Event id (Some name) t b).
  assert (Hid : In id (event_ids
                         (mk_database
                            (map (fun r => if Event_id r =? id then e' else r)
                               (events d)) (players d)))).
  { unfold event_ids. cbn [events]. rewrite (keys_replaced Event_id);
      [|reflexivity]. rewrite <- He. now apply in_map. }
  destruct (get_event_present _ _ Hid) as (e2 & _ & He2 & G2).
  rewrite serve_update_event, G2, S, B, N, He2. cbn [events players].
  fold e'. now rewrite (replaced_twice Event_id).
Qed.

Lemma update_player_twice (id : Z) (data : form) (d : database) :
  serve (PUT_api_player_id id data) (after (PUT_api_player_id id data) d)
  = serve (PUT_api_player_id id data) d.
Proof.
  unfold after. rewrite (serve_update_player id data d).
  destruct (get_row (find_player id d) id) as [[p|]|] eqn:G; cbn [snd];
    try (now rewrite serve_update_player, G).
  destruct (Team_or_None (form_get "team" data)) as [team|] eqn:T.
  2:{ cbn [snd]. now rewrite serve_update_player, G, T. }
  destruct (form_get "name" data) as [name|] eqn:N.
  2:{ cbn [snd]. now rewrite serve_update_player, G, T, N. }
  destruct (form_get "event_id" data) as [event_id|] eqn:E.
  2:{ cbn [snd]. now rewrite serve_update_player, G, T, N, E. }
  cbn [snd]. destruct (get_player_Some _ _ _ G) as (F & Hp & Hin).
  rewrite Hp.
  set (p' := mk_Player id (Some name) (Some (INTEGER_affinity event_id))
               team).
  assert (Hid : In id (player_ids
                         (mk_database (events d)
                            (map (fun r => if Player_id r =? id
                                           then p' else r) (players d))))).
  { unfold player_ids. cbn [players]. rewrite (keys_replaced Player_id);
      [|reflexivity]. rewrite <- Hp. now apply in_map. }
  destruct (get_player_present _ _ Hid) as (p2 & _ & Hp2 & G2).
  rewrite serve_update_player, G2, T, N, E, Hp2. cbn [events players].
  fold p'. now rewrite (replaced_twice Player_id).
Qed.

(** X13.  Every request but a create can be repeated: served a second time
    right after the first, a get, an update or a delete leaves the database
    as the first one left it.  The second get or update is answered as the
    first; the second delete of an id that fits 64 bits is answered 404. *)
Theorem repeated_request (r : request) (d : database) :
  is_POST r = false ->
  after r (after r d) = after r d /\
  match r with
  | DELETE_api_event_id id | DELETE_api_player_id id =>
      fits_int64 id = true ->
      exists resp, outcome r (after r d) = Ok resp /\ status resp = 404
  | _ => outcome r (after r d) = outcome r d
  end.
Proof.
  intros K. destruct r; try discriminate K.
  - split; reflexivity.
  - unfold after, outcome. rewrite !serve_get_event. cbn [fst snd].
    split; reflexivity.
  - pose proof (update_event_twice event_id data d) as U.
    rewrite !serve_is_pair in U. injection U as U1 U2.
    split; assumption.
  - assert (F' : find_event event_id (after (DELETE_api_event_id event_id) d)
                 = None).
    { unfold after. rewrite serve_delete_event.
      destruct (get_row _ event_id) as [[e|]|] eqn:G; cbn [snd].
      - destruct (get_event_Some _ _ _ G) as (_ & E & _). rewrite E.
        unfold find_event. cbn [events]. apply (find_filtered Event_id).
      - now destruct (get_row_None _ _ G).
      - now destruct (get_row_raises _ _ _ G) as (_ & ? & _). }
    unfold outcome. unfold after at 1.
    rewrite (serve_delete_event event_id (after _ d)), F'. cbn [get_row].
    split.
    + now destruct (fits_int64 event_id).
    + intros B. rewrite B. eexists. split; reflexivity.
  - split; reflexivity.
  - unfold after, outcome. rewrite !serve_get_player. cbn [fst snd].
    split; reflexivity.
  - pose proof (update_player_twice player_id data d) as U.
    rewrite !serve_is_pair in U. injection U as U1 U2.
    split; assumption.
  - assert (F' : find_player player_id
                   (after (DELETE_api_player_id player_id) d) = None).
    { unfold after. rewrite serve_delete_player.
      destruct (get_row _ player_id) as [[p|]|] eqn:G; cbn [snd].
      - destruct (get_player_Some _ _ _ G) as (_ & E & _). rewrite E.
        unfold find_player. cbn [players]. apply (find_filtered Player_id).
      - now destruct (get_row_None _ _ G).
      - now destruct (get_row_raises _ _ _ G) as (_ & ? & _). }
    unfold outcome. unfold after at 1.
    rewrite (serve_delete_player player_id (after _ d)), F'. cbn [get_row].
    split.
    + now destruct (fits_int64 player_id).
    + intros B. rewrite B. eexists. split; reflexivity.
Qed.

Lemma repeated_request_witness :
  after (PUT_api_event_id 1 quarters)
    (after (PUT_api_event_id 1 quarters) one_event_one_player)
  = after (PUT_api_event_id 1 quarters) one_event_one_player /\
  exists resp,
    outcome (DELETE_api_player_id 1)
      (after (DELETE_api_player_id 1) one_event_one_player) = Ok resp /\
    status resp = 404.
Proof.
  split.
  - now apply (repeated_request (PUT_api_event_id 1 quarters)
                 one_event_one_player).
  - apply (proj2 (repeated_request (DELETE_api_player_id 1)
                    one_event_one_player eq_refl)).
    reflexivity.
Defined.

(** ** What strptime accepts *)

Section Eats.
Local Open Scope nat_scope.

Lemma two_eats (p q : ascii -> bool) (s : list ascii) (v : Z)
  (rest : list ascii) :
  Strptime.two p q s = Some (v, rest) -> List.length s = List.length rest + 2.
Proof.
  destruct s as [|a [|b s]]; cbn; try discriminate.
  destruct (p a && q b); [|discriminate]. intros [= _ <-]. lia.
Qed.

Lemma one_eats (p : ascii -> bool) (s : list ascii) (v : Z)
  (rest : list ascii) :
  Strptime.one p s = Some (v, rest) -> List.length s = List.length rest + 1.
Proof.
  destruct s as [|a s]; cbn; try discriminate.
  destruct (p a); [|discriminate]. intros [= _ <-]. lia.
Qed.

Lemma blank_one_eats (p : ascii -> bool) (s : list ascii) (v : Z)
  (rest : list ascii) :
  Strptime.blank_one p s = Some (v, rest) -> List.length s = List.length rest + 2.
Proof.
  destruct s as [|a [|b s]]; cbn; try discriminate.
  destruct (_ && p b); [|discriminate]. intros [= _ <-]. lia.
Qed.

Lemma alt_eats (ps : list (list ascii -> option (Z * list ascii))) :
  Forall (fun p => forall s v rest, p s = Some (v, rest) ->
                   List.length rest + 1 <= List.length s <= List.length rest + 2) ps ->
  forall s v rest, Strptime.alt ps s = Some (v, rest) ->
                   List.length rest + 1 <= List.length s <= List.length rest + 2.
Proof.
  induction 1 as [|p ps Hp _ IH]; cbn [Strptime.alt]; [discriminate|].
  intros s v rest. destruct (p s) as [[v' rest']|] eqn:E.
  - intros [= <- <-]. exact (Hp _ _ _ E).
  - apply IH.
Qed.

Lemma dir_Y_eats (s : list ascii) (v : Z) (rest : list ascii) :
  Strptime.dir_Y s = Some (v, rest) -> List.length s = List.length rest + 4.
Proof.
  destruct s as [|a [|b [|c [|e s]]]]; cbn; try discriminate.
  destruct (_ && _); [|discriminate]. intros [= _ <-]. lia.
Qed.

Lemma lit_eats (c : ascii) (s rest : list ascii) :
  Strptime.lit c s = Some rest -> List.length s = List.length rest + 1.
Proof.
  destruct s as [|a s]; cbn [Strptime.lit]; try discriminate.
  destruct (Ascii.eqb a c); [intros [= <-]; cbn; lia|].
  destruct (_ && _); [intros [= <-]; cbn; lia|discriminate].
Qed.

Ltac eats_two :=
  let E := fresh in intros ? ? ? E; apply two_eats in E; lia.
Ltac eats_one :=
  let E := fresh in intros ? ? ? E; apply one_eats in E; lia.
Ltac eats_blank :=
  let E := fresh in intros ? ? ? E; apply blank_one_eats in E; lia.

Lemma directive_eats (s : list ascii) (v : Z) (rest : list ascii) :
  Strptime.dir_m s = Some (v, rest) \/ Strptime.dir_d s = Some (v, rest) \/
  Strptime.dir_H s = Some (v, rest) \/ Strptime.dir_M s = Some (v, rest) \/
  Strptime.dir_S s = Some (v, rest) ->
  List.length rest + 1 <= List.length s <= List.length rest + 2.
Proof.
  unfold Strptime.dir_m, Strptime.dir_d, Strptime.dir_H, Strptime.dir_M,
    Strptime.dir_S.
  intros [H|[H|[H|[H|H]]]]; revert H; apply alt_eats;
    repeat (apply Forall_cons;
            [solve [eats_two | eats_one | eats_blank]|]);
    apply Forall_nil.
Qed.

Lemma regex_length (s : list ascii) (t : datetime) :
  Strptime.regex s = Some t -> 14 <= List.length s <= 19.
Proof.
  unfold Strptime.regex.
  destruct (Strptime.dir_Y s) as [[y s1]|] eqn:E1; [|discriminate].
  destruct (Strptime.lit "-" s1) as [s2|] eqn:E2; [|discriminate].
  destruct (Strptime.dir_m s2) as [[m s3]|] eqn:E3; [|discriminate].
  destruct (Strptime.lit "-" s3) as [s4|] eqn:E4; [|discriminate].
  destruct (Strptime.dir_d s4) as [[dd s5]|] eqn:E5; [|discriminate].
  destruct (Strptime.lit "T" s5) as [s6|] eqn:E6; [|discriminate].
  destruct (Strptime.dir_H s6) as [[h s7]|] eqn:E7; [|discriminate].
  destruct (Strptime.lit ":" s7) as [s8|] eqn:E8; [|discriminate].
  destruct (Strptime.dir_M s8) as [[mi s9]|] eqn:E9; [|discriminate].
  destruct (Strptime.lit ":" s9) as [s10|] eqn:E10; [|discriminate].
  destruct (Strptime.dir_S s10) as [[sec s11]|] eqn:E11; [|discriminate].
  destruct s11; [|discriminate]. intros _.
  apply dir_Y_eats in E1. apply lit_eats in E2, E4, E6, E8, E10.
  pose proof (directive_eats _ _ _ (or_introl E3)).
  pose proof (directive_eats _ _ _ (or_intror (or_introl E5))).
  pose proof (directive_eats _ _ _ (or_intror (or_intror (or_introl E7)))).
  pose proof (directive_eats _ _ _
                (or_intror (or_intror (or_intror (or_introl E9))))).
  pose proof (directive_eats _ _ _
                (or_intror (or_intror (or_intror (or_intror E11))))).
  cbn [List.length] in *. lia.
Qed.

Lemma length_list_ascii_of_string (s : string) :
  List.length (list_ascii_of_string s) = String.length s.
Proof.
  induction s as [|c s IH]; cbn; [reflexivity|now rewrite IH].
Qed.
End Eats.

(** X14.  What strptime lets through.  A string it accepts for
    '%Y-%m-%dT%H:%M:%S' has between 14 and 19 characters, and the datetime
    it returns has a year from 1 to 9999, a month from 1 to 12, a day from
    1 to 31, an hour up to 23 and a minute and a second up to 59; so a
    longer string, and a second 60, are refused. *)
Theorem strptime_accepted_shape (s : string) (t : datetime) :
  strptime (Some s) = Ok t ->
  (14 <= String.length s <= 19)%nat /\
  1 <= dt_year t <= 9999 /\ 1 <= dt_month t <= 12 /\ 1 <= dt_day t <= 31 /\
  0 <= dt_hour t <= 23 /\ 0 <= dt_minute t <= 59 /\ 0 <= dt_second t <= 59.
Proof.
  intros H. pose proof (strptime_valid _ _ H) as V. split.
  - unfold strptime in H.
    destruct (Strptime.regex _) as [t'|] eqn:R; [|discriminate].
    apply regex_length in R. now rewrite length_list_ascii_of_string in R.
  - unfold Strptime.valid in V.
    repeat (apply andb_true_iff in V; destruct V as [V ?]).
    assert (D : Strptime.days_in_month (dt_year t) (dt_month t) <= 31).
    { unfold Strptime.days_in_month.
      repeat match goal with
             | |- context [if ?b then _ else _] => destruct b
             end; lia. }
    repeat match goal with
           | L : (_ <=? _) = true |- _ => apply Z.leb_le in L
           end.
    lia.
Qed.

Lemma strptime_accepted_shape_witness :
  (14 <= String.length "2024-02-29T18:30:00" <= 19)%nat /\
  1 <= 2024 <= 9999 /\ 1 <= 2 <= 12 /\ 1 <= 29 <= 31 /\
  0 <= 18 <= 23 /\ 0 <= 30 <= 59 /\ 0 <= 0 <= 59.
Proof.
  apply (strptime_accepted_shape "2024-02-29T18:30:00"
           (mk_datetime 2024 2 29 18 30 0)).
  reflexivity.
Defined.

(** ** The team of a player, in and out *)

(** X15.  The team a view stores and the team a view returns.  Of the form
    values only "CT" and "TT" give a member of Team; no team field and an
    empty one give None; every other string is refused with KeyError.  The
    team returned for whatever was accepted is the string that was given,
    or null when none or an empty one was given. *)
Theorem team_in_and_out (team : option string) :
  (forall t : Team,
     Team_or_None team = Ok (Some t) <-> team = Some (Team_value t)) /\
  (Team_or_None team = Ok None <-> team = None \/ team = Some "") /\
  (Team_or_None team = Raise KeyError <->
   exists s, team = Some s /\ s <> "" /\ s <> "CT" /\ s <> "TT") /\
  (forall stored : option Team,
     Team_or_None team = Ok stored ->
     team_value_or_None stored = if str_truthy team then team else None).
Proof.
  destruct team as [s|].
  2:{ cbn. repeat split; try discriminate; try tauto.
      - intros (s & H & _). discriminate H.
      - now intros stored [= <-]. }
  destruct (String.eqb_spec s "") as [->|N0].
  { cbn. repeat split; try discriminate; try tauto.
    - intros H. now destruct t.
    - intros (s & [= <-] & H & _). contradiction.
    - now intros stored [= <-]. }
  destruct (String.eqb_spec s "CT") as [->|N1].
  { cbn. repeat split; try discriminate.
    - intros [= <-]. reflexivity.
    - intros H. destruct t; [reflexivity|discriminate H].
    - intros [H|H]; discriminate H.
    - intros (s & [= <-] & _ & H & _). contradiction.
    - now intros stored [= <-]. }
  destruct (String.eqb_spec s "TT") as [->|N2].
  { cbn. repeat split; try discriminate.
    - intros [= <-]. reflexivity.
    - intros H. destruct t; [discriminate H|reflexivity].
    - intros [H|H]; discriminate H.
    - intros (s & [= <-] & _ & _ & H). contradiction.
    - now intros stored [= <-]. }
  rewrite (Team_or_None_rejects s N0 N1 N2).
  repeat split; try discriminate.
  - intros [= ->]. destruct t; contradiction.
  - intros [H|[= H]]; [discriminate H|contradiction].
  - intros _. now exists s.
Qed.

Lemma team_in_and_out_witness :
  team_value_or_None (Some TT) = Some "TT".
Proof.
  apply (proj2 (proj2 (proj2 (team_in_and_out (Some "TT")))) (Some TT)).
  reflexivity.
Defined.

(** ** The ids of successive creates *)

Lemma next_id_appended (ids : list Z) :
  next_id (ids ++ [next_id ids]) = next_id ids + 1.
Proof.
  unfold next_id.
  assert (G : forall n, fold_right Z.max 0 (ids ++ [n])
                        = Z.max (fold_right Z.max 0 ids) n).
  { intros n. induction ids as [|x ids IH]; cbn [app fold_right]; [lia|].
    rewrite IH. lia. }
  rewrite G. lia.
Qed.

(** X16.  Two creates that succeed one right after the other give their
    records consecutive ids: the first gets one more than the largest id of
    the table (1 in an empty table), the second one more than the first,
    and both come last in the table.  So for events, so for players. *)
Theorem successive_creates_get_consecutive_ids
  (d : database) (data1 data2 : form) (resp1 resp2 : response) :
  (outcome (POST_api_event data1) d = Ok resp1 ->
   outcome (POST_api_event data2) (after (POST_api_event data1) d)
   = Ok resp2 ->
   event_ids (after (POST_api_event data2) (after (POST_api_event data1) d))
   = (event_ids d
      ++ [next_id (event_ids d); next_id (event_ids d) + 1])%list) /\
  (outcome (POST_api_player data1) d = Ok resp1 ->
   outcome (POST_api_player data2) (after (POST_api_player data1) d)
   = Ok resp2 ->
   player_ids (after (POST_api_player data2)
                 (after (POST_api_player data1) d))
   = (player_ids d
      ++ [next_id (player_ids d); next_id (player_ids d) + 1])%list).
Proof.
  split.
  - unfold outcome, after. rewrite (serve_create_event data1 d).
    destruct (strptime (form_get "match_time" data1)); [|discriminate].
    destruct (Boolean_bind (form_get_default "mix10" (PyBool false) data1));
      [|discriminate].
    destruct (form_get "name" data1); [|discriminate].
    cbn [fst snd]. intros _. rewrite serve_create_event.
    destruct (strptime (form_get "match_time" data2)); [|discriminate].
    destruct (Boolean_bind (form_get_default "mix10" (PyBool false) data2));
      [|discriminate].
    destruct (form_get "name" data2); [|discriminate].
    cbn [fst snd]. intros _. unfold event_ids. cbn [events].
    rewrite !map_app. cbn [map Event_id].
    rewrite next_id_appended, <- app_assoc. reflexivity.
  - unfold outcome, after. rewrite (serve_create_player data1 d).
    destruct (Team_or_None (form_get "team" data1)); [|discriminate].
    destruct (form_get "name" data1); [|discriminate].
    destruct (form_get "event_id" data1); [|discriminate].
    cbn [fst snd]. intros _. rewrite serve_create_player.
    destruct (Team_or_None (form_get "team" data2)); [|discriminate].
    destruct (form_get "name" data2); [|discriminate].
    destruct (form_get "event_id" data2); [|discriminate].
    cbn [fst snd]. intros _. unfold player_ids. cbn [players].
    rewrite !map_app. cbn [map Player_id].
    rewrite next_id_appended, <- app_assoc. reflexivity.
Qed.

Lemma successive_creates_get_consecutive_ids_witness :
  event_ids (after (POST_api_event quarters)
               (after (POST_api_event semis) empty_database))
  = [1; 2].
Proof.
  apply (proj1 (successive_creates_get_consecutive_ids empty_database
                  semis quarters
                  (mk_response (message "Event added successfully") 201)
                  (mk_response (message "Event added successfully") 201)));
    reflexivity.
Defined.
